(** * BPMN workflow schema utilities: a shallow embedding

    Two scripts are modelled here:

    - [scripts/test-bpmn-combined.py]: [combine_schemas] loads six schema
      files, merges their [definitions] under prefixed names, rewrites
      every external [$ref] into a local pointer and writes the result;
    - [scripts/test-bpmn-json.py]: [check_bpmn_file] checks the structure of
      a BPMN document and returns the list of problems found; [main], which
      prints that list for each sample file, is not modelled.

    Python values are the ones [json.load] produces.  A [dict] keeps its
    insertion order and is an association list whose keys are pairwise
    distinct; a raised exception is the left summand of the error monad. *)

From Stdlib Require Import ZArith List String Ascii Bool Lia Permutation.
From Stdlib Require Import SpecFloat.
From ExtLib Require Import Structures.Monad Data.Monads.EitherMonad.
Import ListNotations.
Import MonadNotation.
Local Open Scope monad_scope.
Local Open Scope string_scope.
Local Open Scope list_scope.

Infix "+++" := String.append (right associativity, at level 60).

(** ** Python strings

    A [str] is modelled by [string]; the patterns searched for below are
    ASCII, so searching bytes of the UTF-8 form and searching code points
    find the same occurrences. *)
Module PyStr.

(** [s.startswith(p)] *)
Definition startswith (s p : string) : bool := String.prefix p s.

(** [p in s] for two strings: [p] occurs somewhere in [s]. *)
Fixpoint contains (p s : string) : bool :=
  String.prefix p s ||
  match s with
  | EmptyString => false
  | String _ s' => contains p s'
  end.

(** [s.replace(old, new)], scanning left to right over non-overlapping
    occurrences; [skip] counts the characters of the occurrence just
    replaced that are still to be passed over.  [old] is not empty. *)
Fixpoint replace_from (old new : string) (skip : nat) (s : string) : string :=
  match s with
  | EmptyString => EmptyString
  | String c s' =>
      match skip with
      | S k => replace_from old new k s'
      | O =>
          if String.prefix old s
          then new +++ replace_from old new (String.length old - 1) s'
          else String c (replace_from old new 0 s')
      end
  end.

Definition replace (s old new : string) : string := replace_from old new 0 s.

(** [s.split(sep)] for a non-empty [sep]: the pieces between the
    non-overlapping occurrences of [sep], found left to right. *)
Fixpoint split_from (sep : string) (skip : nat) (s : string) : list string :=
  match s with
  | EmptyString => [EmptyString]
  | String c s' =>
      match skip with
      | S k => split_from sep k s'
      | O =>
          if String.prefix sep s
          then EmptyString :: split_from sep (String.length sep - 1) s'
          else match split_from sep 0 s' with
               | piece :: pieces => String c piece :: pieces
               | [] => [String c EmptyString]
               end
      end
  end.

Definition split (s sep : string) : list string := split_from sep 0 s.

(** The characters of a string, each as a one-character string: what
    iterating over a [str] yields. *)
Fixpoint chars (s : string) : list string :=
  match s with
  | EmptyString => []
  | String c s' => String c EmptyString :: chars s'
  end.

(** Index of the last ["."] of [s], counted from the right end: the
    number of characters after it. *)
Fixpoint after_last_dot (s : string) : option nat :=
  match s with
  | EmptyString => None
  | String c s' =>
      match after_last_dot s' with
      | Some n => Some n
      | None => if Ascii.eqb c "."%char then Some (String.length s') else None
      end
  end.

(** The part of a path after its last ["/"]. *)
Fixpoint basename (p : string) : string :=
  match p with
  | EmptyString => EmptyString
  | String c p' =>
      if contains "/" p' then basename p'
      else if Ascii.eqb c "/"%char then p' else p
  end.

(** [Path(p).stem]: the final component without its last suffix; a dot
    that starts or ends the component does not begin a suffix. *)
Definition stem (p : string) : string :=
  let name := basename p in
  match after_last_dot name with
  | Some n =>
      let i := String.length name - n - 1 in
      if (0 <? i)%nat && (0 <? n)%nat then String.substring 0 i name else name
  | None => name
  end.

End PyStr.

(** ** Exceptions and the error monad *)

Inductive exn : Type :=
| FileError (msg : string)        (* [open] failed: [OSError] and its subclasses *)
| JSONDecodeError (msg : string)  (* [json.load] failed *)
| TypeError
| AttributeError
| KeyError.

(** [str(e)] of an exception raised while loading a file. *)
Definition exn_message (e : exn) : string :=
  match e with
  | FileError msg | JSONDecodeError msg => msg
  | TypeError => "TypeError"
  | AttributeError => "AttributeError"
  | KeyError => "KeyError"
  end.

Definition exc (A : Type) : Type := sum exn A.

#[global] Instance Monad_exc : Monad exc := Monad_either exn.

Definition raise {A : Type} (e : exn) : exc A := inl e.

(** ** JSON values as Python objects *)

Unset Elimination Schemes.
Inductive json : Type :=
| JNull
| JBool (b : bool)
| JInt (n : Z)
| JFloat (f : spec_float)
| JStr (s : string)
| JArr (items : list json)
| JObj (entries : list (string * json)).
Set Elimination Schemes.

Definition dict : Type := list (string * json).

(** ** Induction on documents *)
Section JsonInduction.

Variable P : json -> Prop.
Hypothesis P_null : P JNull.
Hypothesis P_bool : forall b, P (JBool b).
Hypothesis P_int : forall n, P (JInt n).
Hypothesis P_float : forall f, P (JFloat f).
Hypothesis P_str : forall s, P (JStr s).
Hypothesis P_arr : forall items, Forall P items -> P (JArr items).
Hypothesis P_obj : forall entries, Forall (fun entry => P (snd entry)) entries -> P (JObj entries).

Fixpoint json_ind (v : json) : P v :=
  match v with
  | JNull => P_null
  | JBool b => P_bool b
  | JInt n => P_int n
  | JFloat f => P_float f
  | JStr s => P_str s
  | JArr items =>
      P_arr items
        ((fix all (l : list json) : Forall P l :=
            match l with
            | [] => Forall_nil P
            | x :: l' => Forall_cons x (json_ind x) (all l')
            end) items)
  | JObj entries =>
      P_obj entries
        ((fix all (l : list (string * json)) : Forall (fun entry => P (snd entry)) l :=
            match l with
            | [] => Forall_nil _
            | e :: l' => Forall_cons e (json_ind (snd e)) (all l')
            end) entries)
  end.

End JsonInduction.

Module PyDict.

Fixpoint get (d : dict) (k : string) : option json :=
  match d with
  | [] => None
  | (k', v) :: d' => if String.eqb k k' then Some v else get d' k
  end.

Definition has (d : dict) (k : string) : bool :=
  match get d k with Some _ => true | None => false end.

(** [d[k] = v]: an existing key keeps its place, a new one goes last. *)
Fixpoint set (k : string) (v : json) (d : dict) : dict :=
  match d with
  | [] => [(k, v)]
  | (k', v') :: d' =>
      if String.eqb k k' then (k', v) :: d' else (k', v') :: set k v d'
  end.

(** [del d[k]] *)
Fixpoint del (k : string) (d : dict) : dict :=
  match d with
  | [] => []
  | (k', v') :: d' => if String.eqb k k' then d' else (k', v') :: del k d'
  end.

Definition keys (d : dict) : list string := map fst d.

End PyDict.

Fixpoint nodupb (l : list string) : bool :=
  match l with
  | [] => true
  | k :: l' => negb (existsb (String.eqb k) l') && nodupb l'
  end.

(** A parsed document: the keys of every object are pairwise distinct. *)
Fixpoint wf_json (v : json) : bool :=
  match v with
  | JArr items => forallb wf_json items
  | JObj entries =>
      nodupb (map fst entries) && forallb (fun kv => wf_json (snd kv)) entries
  | _ => true
  end.

(** ** The object protocol on parsed values

    The scripts apply [in], [x[k]], [x.get(k, d)], [for ... in x] and the
    like to whatever the document holds at that place; each of them is
    defined on some kinds of value and raises on the others. *)
Module Py.

(** [k in x] for a string [k]: a key of a dict, an item of a list, a
    substring of a string; the other values are not containers. *)
Definition contains (k : string) (x : json) : exc bool :=
  match x with
  | JObj d => ret (PyDict.has d k)
  | JArr items =>
      ret (existsb (fun v => match v with JStr s => String.eqb k s | _ => false end) items)
  | JStr s => ret (PyStr.contains k s)
  | _ => raise TypeError
  end.

(** [x[k]] for a string [k] *)
Definition getitem (x : json) (k : string) : exc json :=
  match x with
  | JObj d => match PyDict.get d k with Some v => ret v | None => raise KeyError end
  | _ => raise TypeError
  end.

(** [x.get(k, default)]: only a dict has the method. *)
Definition get (x : json) (k : string) (default : json) : exc json :=
  match x with
  | JObj d => ret (match PyDict.get d k with Some v => v | None => default end)
  | _ => raise AttributeError
  end.

(** [x.items()] *)
Definition items (x : json) : exc dict :=
  match x with
  | JObj d => ret d
  | _ => raise AttributeError
  end.

(** [x.copy()]: a shallow copy; nothing below mutates a shared child, so
    the copy is the value itself. *)
Definition copy (x : json) : exc json :=
  match x with
  | JObj _ | JArr _ => ret x
  | _ => raise AttributeError
  end.

(** [x[k] = v] for a string [k] *)
Definition setitem (x : json) (k : string) (v : json) : exc json :=
  match x with
  | JObj d => ret (JObj (PyDict.set k v d))
  | _ => raise TypeError
  end.

(** [del x[k]] for a string [k] *)
Definition delitem (x : json) (k : string) : exc json :=
  match x with
  | JObj d => if PyDict.has d k then ret (JObj (PyDict.del k d)) else raise KeyError
  | _ => raise TypeError
  end.

(** [for item in x]: the items of a list, the keys of a dict, the
    characters of a string. *)
Definition iter (x : json) : exc (list json) :=
  match x with
  | JArr items => ret items
  | JObj d => ret (map JStr (PyDict.keys d))
  | JStr s => ret (map JStr (PyStr.chars s))
  | _ => raise TypeError
  end.

(** [x == s] for a string [s] *)
Definition eq_str (x : json) (s : string) : bool :=
  match x with
  | JStr t => String.eqb t s
  | _ => false
  end.

End Py.

(** ** scripts/test-bpmn-combined.py *)
Module Combined.

Definition schema_files : list string :=
  [ "schemas/bpmn-common.json";
    "schemas/bpmn-flow-objects.json";
    "schemas/bpmn-connectors.json";
    "schemas/bpmn-artifacts.json";
    "schemas/bpmn-agents.json";
    "schemas/bpmn-process.json" ].

Definition test_files : list string :=
  [ "test-data/simple-process.json";
    "test-data/parallel-gateway.json";
    "test-data/exclusive-gateway.json" ].

Definition combined_path : string := "schemas/bpmn-combined.json".

(** Lines 23-27: every file is opened and parsed in turn, and stored
    under the stem of its path; the first failure propagates. *)
Fixpoint load_schemas (read : string -> exc json) (files : list string)
         (schemas : dict) : exc dict :=
  match files with
  | [] => ret schemas
  | filepath :: rest =>
      schema <- read filepath ;;
      load_schemas read rest (PyDict.set (PyStr.stem filepath) schema schemas)
  end.

(** Lines 38-45: the definitions of one schema go into the merged map,
    under their own name for the process schema and prefixed otherwise. *)
Definition add_definitions (name : string) (definitions all_definitions : dict) : dict :=
  fold_left
    (fun all (entry : string * json) =>
       let (def_name, definition) := entry in
       if String.eqb name "bpmn-process"
       then PyDict.set def_name definition all
       else
         let prefix := PyStr.replace name "bpmn-" "" +++ "_" in
         PyDict.set (prefix +++ def_name) definition all)
    definitions all_definitions.

(** Lines 35-45 *)
Fixpoint merge_definitions (schemas all_definitions : dict) : exc dict :=
  match schemas with
  | [] => ret all_definitions
  | (name, schema) :: rest =>
      present <- Py.contains "definitions" schema ;;
      if (present : bool) then
        definitions <- Py.getitem schema "definitions" ;;
        entries <- Py.items definitions ;;
        merge_definitions rest (add_definitions name entries all_definitions)
      else merge_definitions rest all_definitions
  end.

(** Lines 56-69: the new value of a string stored under ["$ref"]. *)
Definition local_ref (value : string) : string :=
  if PyStr.startswith value "bpmn-" then
    match PyStr.split value "#/definitions/" with
    | [file; def_name] =>
        let source_schema := PyStr.replace file ".json" "" in
        if String.eqb source_schema "bpmn-process"
        then "#/definitions/" +++ def_name
        else
          let prefix := PyStr.replace source_schema "bpmn-" "" +++ "_" in
          "#/definitions/" +++ prefix +++ def_name
    | _ => value
    end
  else value.

(** Lines 50-76.  [schema_name] is passed along and never read. *)
Fixpoint update_refs (obj : json) (schema_name : string) : json :=
  match obj with
  | JObj entries =>
      JObj (fold_left
              (fun new_obj (entry : string * json) =>
                 let (key, value) := entry in
                 match String.eqb key "$ref", value with
                 | true, JStr s => PyDict.set key (JStr (local_ref s)) new_obj
                 | _, _ => PyDict.set key (update_refs value schema_name) new_obj
                 end)
              entries [])
  | JArr items => JArr (map (fun item => update_refs item schema_name) items)
  | _ => obj
  end.

(** Lines 30-83: the combined document, from the loaded schemas. *)
Definition combine (schemas : dict) : exc json :=
  base <- Py.getitem (JObj schemas) "bpmn-process" ;;
  combined <- Py.copy base ;;
  all_definitions <- merge_definitions schemas [] ;;
  combined <- Py.setitem combined "definitions" (JObj all_definitions) ;;
  let combined := update_refs combined "bpmn-process" in
  has_id <- Py.contains "$id" combined ;;
  if (has_id : bool) then Py.delitem combined "$id" else ret combined.

(** *** Effects

    What the script can observe of its surroundings, and what it does
    to them: the files it reads, the one file it writes, the lines it
    prints and the validator it runs. *)
Record world : Type := {
  read_json : string -> exc json;          (* [open(path)] then [json.load] *)
  open_for_writing : string -> exc unit;   (* [open(path, 'w')] *)
  run : list string -> exc (Z * string)    (* [subprocess.run]: return code, stderr *)
}.

Inductive event : Type :=
| Written (path : string) (doc : json)   (* [json.dump(doc, f, indent=2)] into [path] *)
| Printed (line : string).

(** A computation extends the trace of events and returns or raises;
    what was done before an exception stays done. *)
Definition io (A : Type) : Type := list event -> list event * exc A.

#[global] Instance Monad_io : Monad io := {|
  ret := fun _ a t => (t, inr a);
  bind := fun _ _ c k t =>
    match c t with
    | (t', inr a) => k a t'
    | (t', inl e) => (t', inl e)
    end
|}.

Definition lift {A : Type} (c : exc A) : io A := fun t => (t, c).

Definition emit (e : event) : io unit := fun t => (t ++ [e], inr tt).

Definition newline : string := String (ascii_of_nat 10) EmptyString.

(** Lines 99-111 *)
Fixpoint validate_all (w : world) (files : list string) : io unit :=
  match files with
  | [] => ret tt
  | test_file :: rest =>
      emit (Printed (newline +++ "Validating " +++ test_file +++ "...")) ;;
      result <- lift (run w ["ajv"; "validate"; "-s"; combined_path; "-d"; test_file]) ;;
      (if (fst result =? 0)%Z
       then emit (Printed ("✓ " +++ test_file +++ " is valid"))
       else
         emit (Printed ("✗ " +++ test_file +++ " validation failed:")) ;;
         emit (Printed (snd result))) ;;
      validate_all w rest
  end.

(** Lines 9-111 *)
Definition combine_schemas (w : world) : io unit :=
  schemas <- lift (load_schemas (read_json w) schema_files []) ;;
  combined <- lift (combine schemas) ;;
  lift (open_for_writing w combined_path) ;;
  emit (Written combined_path combined) ;;
  emit (Printed ("Created combined schema: " +++ combined_path)) ;;
  emit (Printed (newline +++ "Testing validation with combined schema...")) ;;
  validate_all w test_files.

End Combined.

(** ** scripts/test-bpmn-json.py *)
Module Validator.

(** *** The set of declared ids

    Only [None], booleans, numbers and strings can be put in a [set] or
    looked up in one.  Two of them are the same member when they are
    equal as Python values, booleans counting as the integers 0 and 1
    and a float being compared with an integer by its exact value.
    The set is the list of the values added to it, and a value is in it
    when an equal one was added. *)
Definition hashable (v : json) : bool :=
  match v with
  | JArr _ | JObj _ => false
  | _ => true
  end.

Definition float_is_int (f : spec_float) (z : Z) : bool :=
  match f with
  | S754_zero _ => (z =? 0)%Z
  | S754_finite s m e =>
      let v := if s then Z.neg m else Z.pos m in
      if (0 <=? e)%Z then (z =? v * 2 ^ e)%Z else (z * 2 ^ (- e) =? v)%Z
  | _ => false
  end.

(** The decoder hands out one [NaN] object for every [NaN] of a
    document, and a set finds an object that is already in it. *)
Definition float_eqb (f g : spec_float) : bool :=
  match f, g with
  | S754_nan, S754_nan => true
  | S754_zero _, S754_zero _ => true
  | S754_infinity a, S754_infinity b => Bool.eqb a b
  | S754_finite s m e, S754_finite s' m' e' =>
      let k := Z.min e e' in
      Bool.eqb s s' && (Z.pos m * 2 ^ (e - k) =? Z.pos m' * 2 ^ (e' - k))%Z
  | _, _ => false
  end.

Definition key_eqb (a b : json) : bool :=
  match a, b with
  | JNull, JNull => true
  | JStr s, JStr t => String.eqb s t
  | JBool x, JBool y => Bool.eqb x y
  | JBool x, JInt n | JInt n, JBool x => (n =? Z.b2z x)%Z
  | JBool x, JFloat f | JFloat f, JBool x => float_is_int f (Z.b2z x)
  | JInt n, JInt m => (n =? m)%Z
  | JInt n, JFloat f | JFloat f, JInt n => float_is_int f n
  | JFloat f, JFloat g => float_eqb f g
  | _, _ => false
  end.

(** [v in all_ids] *)
Definition set_mem (v : json) (all_ids : list json) : exc bool :=
  if hashable v then ret (existsb (key_eqb v) all_ids) else raise TypeError.

(** [all_ids.add(v)] *)
Definition set_add (v : json) (all_ids : list json) : exc (list json) :=
  if hashable v then ret (all_ids ++ [v]) else raise TypeError.

(** [for x in items: body], threading the state of the loop. *)
Fixpoint for_each {A S : Type} (body : S -> A -> exc S) (items : list A) (s : S) : exc S :=
  match items with
  | [] => ret s
  | x :: rest => s' <- body s x ;; for_each body rest s'
  end.

Section Check.

(** The text Python gives a value that is not a string when it is
    formatted into a message ([None], a number, a list, a dict). *)
Variable repr : json -> string.

(** [f"{v}"] *)
Definition str (v : json) : string :=
  match v with
  | JStr s => s
  | _ => repr v
  end.

(** [field not in x] *)
Definition missing (x : json) (field : string) : exc bool :=
  present <- Py.contains field x ;; ret (negb present).

(** [f"{x.get('id', '?')}"] *)
Definition label (x : json) : exc string :=
  id <- Py.get x "id" (JStr "?") ;; ret (str id).

(** The errors found so far and the ids declared so far. *)
Definition state : Type := list string * list json.

(** Lines 44-47, 59-62 and 79-82: an element without an id is an
    error, an id is added to the set. *)
Definition declare (kind : string) (st : state) (x : json) : exc state :=
  let (errors, all_ids) := st in
  no_id <- missing x "id" ;;
  if (no_id : bool)
  then ret (errors ++ [kind +++ " missing 'id': " +++ str x], all_ids)
  else
    id <- Py.getitem x "id" ;;
    all_ids <- set_add id all_ids ;;
    ret (errors, all_ids).

(** Lines 48-49, 63-66 and 83-84 *)
Definition require (kind field : string) (errors : list string) (x : json)
  : exc (list string) :=
  absent <- missing x field ;;
  if (absent : bool)
  then who <- label x ;; ret (errors ++ [kind +++ " " +++ who +++ " missing '" +++ field +++ "'"])
  else ret errors.

(** Lines 43-54 *)
Definition check_event (st : state) (event : json) : exc state :=
  st <- declare "Event" st event ;;
  let (errors, all_ids) := (st : state) in
  errors <- require "Event" "type" errors event ;;
  type <- Py.get event "type" JNull ;;
  if Py.eq_str type "boundaryEvent" then
    errors <- require "Boundary event" "attachedToRef" errors event ;;
    ret (errors, all_ids)
  else ret (errors, all_ids).

(** Lines 58-74 *)
Definition check_activity (st : state) (activity : json) : exc state :=
  st <- declare "Activity" st activity ;;
  let (errors, all_ids) := (st : state) in
  errors <- require "Activity" "name" errors activity ;;
  errors <- require "Activity" "type" errors activity ;;
  has_agent <- Py.contains "agent" activity ;;
  if (has_agent : bool) then
    agent <- Py.getitem activity "agent" ;;
    no_type <- missing agent "type" ;;
    errors <- (if (no_type : bool)
               then who <- label activity ;;
                    ret (errors ++ ["Activity " +++ who +++ " agent missing 'type'"])
               else ret errors) ;;
    no_strategy <- missing agent "strategy" ;;
    errors <- (if (no_strategy : bool)
               then who <- label activity ;;
                    ret (errors ++ ["Activity " +++ who +++ " agent missing 'strategy'"])
               else ret errors) ;;
    ret (errors, all_ids)
  else ret (errors, all_ids).

(** Lines 78-84 *)
Definition check_gateway (st : state) (gateway : json) : exc state :=
  st <- declare "Gateway" st gateway ;;
  let (errors, all_ids) := (st : state) in
  errors <- require "Gateway" "type" errors gateway ;;
  ret (errors, all_ids).

(** Lines 91-94 and 95-98: one end of a flow must be given and must
    be a declared id. *)
Definition check_ref (all_ids : list json) (field : string)
           (errors : list string) (flow : json) : exc (list string) :=
  absent <- missing flow field ;;
  if (absent : bool)
  then who <- label flow ;;
       ret (errors ++ ["Sequence flow " +++ who +++ " missing '" +++ field +++ "'"])
  else
    ref <- Py.getitem flow field ;;
    known <- set_mem ref all_ids ;;
    if (known : bool) then ret errors
    else who <- label flow ;;
         ret (errors ++ ["Sequence flow " +++ who +++ " has invalid " +++ field
                           +++ ": " +++ str ref]).

(** Lines 88-98 *)
Definition check_flow (all_ids : list json) (errors : list string) (flow : json)
  : exc (list string) :=
  no_id <- missing flow "id" ;;
  let errors :=
    if (no_id : bool)
    then errors ++ ["Sequence flow missing 'id': " +++ str flow]
    else errors in
  errors <- check_ref all_ids "sourceRef" errors flow ;;
  check_ref all_ids "targetRef" errors flow.

(** [if key in elements: for x in elements[key]: body] *)
Definition each_of {S : Type} (elements : json) (key : string)
           (body : S -> json -> exc S) (s : S) : exc S :=
  present <- Py.contains key elements ;;
  if (present : bool) then
    array <- Py.getitem elements key ;;
    items <- Py.iter array ;;
    for_each body items s
  else ret s.

(** Lines 36-98 *)
Definition check_elements (elements : json) (errors : list string)
  : exc (list string) :=
  st <- each_of elements "events" check_event (errors, []) ;;
  st <- each_of elements "activities" check_activity st ;;
  st <- each_of elements "gateways" check_gateway st ;;
  let (errors, all_ids) := (st : state) in
  each_of elements "sequenceFlows" (check_flow all_ids) errors.

(** Lines 22-100, on the parsed document *)
Definition check (data : json) : exc (list string) :=
  no_process <- missing data "process" ;;
  if (no_process : bool) then ret ["Missing 'process' root element"]
  else
    process <- Py.getitem data "process" ;;
    let errors := [] in
    no_id <- missing process "id" ;;
    let errors := if (no_id : bool) then errors ++ ["Process missing 'id' field"] else errors in
    no_name <- missing process "name" ;;
    let errors := if (no_name : bool) then errors ++ ["Process missing 'name' field"] else errors in
    no_elements <- missing process "elements" ;;
    if (no_elements : bool) then ret (errors ++ ["Process missing 'elements' field"])
    else
      elements <- Py.getitem process "elements" ;;
      check_elements elements errors.

(** Lines 11-100: a file that cannot be loaded is reported as the one
    error; an exception of the checks themselves is not caught. *)
Definition check_bpmn_file (read : string -> exc json) (filepath : string)
  : exc (list string) :=
  match read filepath with
  | inl e => ret ["Failed to load JSON: " +++ exn_message e]
  | inr data => check data
  end.

End Check.

End Validator.

(** ** scripts/test-bpmn-json.py: the batch runner *)
Module Runner.

Definition test_files : list string :=
  [ "test-data/simple-process.json";
    "test-data/parallel-gateway.json";
    "test-data/exclusive-gateway.json";
    "test-data/subprocess.json";
    "test-data/ai-human-collab.json";
    "test-data/dynamic-assignment.json";
    "test-data/invalid-bpmn.json" ].

(** ["=" * 50] *)
Definition rule : string := String.concat "" (repeat "=" 50).

(** Lines 120-125: the verdict on one file and, when there are errors,
    one line for each. *)
Definition verdict (filepath : string) (errors : list string) : list string :=
  match errors with
  | [] => ["✓ " +++ filepath +++ " - VALID"]
  | _ :: _ =>
      ("✗ " +++ filepath +++ " - INVALID")
        :: map (fun error => "  - " +++ error) errors
  end.

(** Lines 116-125: the loop over the files, threading the lines printed
    so far; an exception of [check_bpmn_file] is not caught and ends it. *)
Fixpoint report_all (repr : json -> string) (read : string -> exc json)
         (files : list string) (printed : list string) : list string * exc unit :=
  match files with
  | [] => (printed, inr tt)
  | filepath :: rest =>
      let printed := printed ++ [Combined.newline +++ "Testing " +++ filepath +++ "..."] in
      match Validator.check_bpmn_file repr read filepath with
      | inl e => (printed, inl e)
      | inr errors => report_all repr read rest (printed ++ verdict filepath errors)
      end
  end.

(** Lines 102-125 *)
Definition main (repr : json -> string) (read : string -> exc json)
           (printed : list string) : list string * exc unit :=
  report_all repr read test_files
    (printed ++ ["BPMN JSON Structure Validation"; rule]).

End Runner.

(** ** Vocabulary of the statements *)

(** The pieces of a split joined again by the separator. *)
Fixpoint join (sep : string) (pieces : list string) : string :=
  match pieces with
  | [] => ""
  | [piece] => piece
  | piece :: more => piece +++ sep +++ join sep more
  end.

(** A character of a string. *)
Fixpoint char_in (c : ascii) (s : string) : Prop :=
  match s with
  | EmptyString => False
  | String c' s' => c = c' \/ char_in c s'
  end.

(** What separates the file from the name in a reference. *)
Definition marker : string := "#/definitions/".

(** [value] is an external reference to definition [name] of [file]: the
    file part starts with the schema prefix, and the marker occurs once. *)
Definition external_form (value file name : string) : Prop :=
  value = file +++ marker +++ name
  /\ PyStr.startswith file "bpmn-" = true
  /\ PyStr.contains marker file = false
  /\ PyStr.contains marker name = false.

(** The local pointer the combiner gives a reference to [name] of [file]:
    every [".json"] and then every ["bpmn-"] is taken out of the file part. *)
Definition pointer_to (file name : string) : string :=
  let source := PyStr.replace file ".json" "" in
  if String.eqb source "bpmn-process" then marker +++ name
  else marker +++ PyStr.replace source "bpmn-" "" +++ "_" +++ name.

(** [s] without the ending [suffix], when it ends so. *)
Definition strip_suffix (suffix s : string) : string :=
  let n := String.length s - String.length suffix in
  if (String.length suffix <=? String.length s)%nat
     && String.eqb (String.substring n (String.length suffix) s) suffix
  then String.substring 0 n s else s.

(** [s] without the leading [p], when it starts so. *)
Definition strip_prefix (p s : string) : string :=
  if String.prefix p s
  then String.substring (String.length p) (String.length s - String.length p) s
  else s.

(** The pointer as the specification words it: only the extension and
    the leading token are removed from the file part. *)
Definition spec_pointer (file name : string) : string :=
  let source := strip_suffix ".json" file in
  if String.eqb source "bpmn-process" then marker +++ name
  else marker +++ strip_prefix "bpmn-" source +++ "_" +++ name.

(** The rewrite of one reference, as a relation: an external reference
    becomes the local pointer, any other string stays. *)
Inductive ref_rewritten : string -> string -> Prop :=
| ref_external (value file name : string) :
    external_form value file name -> ref_rewritten value (pointer_to file name)
| ref_other (value : string) :
    (forall file name, ~ external_form value file name) -> ref_rewritten value value.

(** The rewrite of a document, as a relation: the same document, but for
    the strings stored under ["$ref"]. *)
#[warnings="-register-all"]
Inductive rewritten : json -> json -> Prop :=
| rewritten_null : rewritten JNull JNull
| rewritten_bool (b : bool) : rewritten (JBool b) (JBool b)
| rewritten_int (n : Z) : rewritten (JInt n) (JInt n)
| rewritten_float (f : spec_float) : rewritten (JFloat f) (JFloat f)
| rewritten_str (s : string) : rewritten (JStr s) (JStr s)
| rewritten_arr (items items' : list json) :
    Forall2 rewritten items items' -> rewritten (JArr items) (JArr items')
| rewritten_obj (entries entries' : dict) :
    Forall2 entry_rewritten entries entries' -> rewritten (JObj entries) (JObj entries')
with entry_rewritten : string * json -> string * json -> Prop :=
| entry_ref (s s' : string) :
    ref_rewritten s s' -> entry_rewritten ("$ref", JStr s) ("$ref", JStr s')
| entry_other (key : string) (value value' : json) :
    key <> "$ref" \/ (forall s, value <> JStr s) ->
    rewritten value value' -> entry_rewritten (key, value) (key, value').

(** The new value of an entry of an object under the rewrite. *)
Definition rewritten_value (schema_name : string) (entry : string * json) : json :=
  match String.eqb (fst entry) "$ref", snd entry with
  | true, JStr s => JStr (Combined.local_ref s)
  | _, _ => Combined.update_refs (snd entry) schema_name
  end.

(** Every string stored under ["$ref"], at any depth. *)
Fixpoint refs_of (v : json) : list string :=
  match v with
  | JObj entries =>
      flat_map (fun entry : string * json =>
                  match String.eqb (fst entry) "$ref", snd entry with
                  | true, JStr s => [s]
                  | _, _ => refs_of (snd entry)
                  end) entries
  | JArr items => flat_map refs_of items
  | _ => []
  end.

(** *** Documents of the expected shape, and their errors in closed form *)

(** The value under [field] can be looked up in the set of ids. *)
Definition field_hashable (e : dict) (field : string) : bool :=
  match PyDict.get e field with
  | Some v => Validator.hashable v
  | None => true
  end.

(** An event or a gateway: an object whose id, if any, can be in a set. *)
Definition element_ok (x : json) : bool :=
  match x with
  | JObj e => field_hashable e "id"
  | _ => false
  end.

(** An activity: moreover its agent, if any, is a container. *)
Definition activity_ok (x : json) : bool :=
  match x with
  | JObj e =>
      field_hashable e "id"
      && match PyDict.get e "agent" with
         | Some (JObj _ | JArr _ | JStr _) | None => true
         | Some _ => false
         end
  | _ => false
  end.

Definition flow_ok (x : json) : bool :=
  match x with
  | JObj e => field_hashable e "sourceRef" && field_hashable e "targetRef"
  | _ => false
  end.

(** The members of one section of [elements]. *)
Definition items_of (elements : dict) (key : string) : list json :=
  match PyDict.get elements key with
  | Some (JArr items) => items
  | _ => []
  end.

Definition section_ok (ok : json -> bool) (elements : dict) (key : string) : bool :=
  match PyDict.get elements key with
  | Some (JArr items) => forallb ok items
  | Some _ => false
  | None => true
  end.

Definition elements_ok (elements : dict) : bool :=
  section_ok element_ok elements "events"
  && section_ok activity_ok elements "activities"
  && section_ok element_ok elements "gateways"
  && section_ok flow_ok elements "sequenceFlows".

(** The ids a list of elements declares, in order. *)
Definition declared_ids (items : list json) : list json :=
  flat_map (fun x => match x with
                     | JObj e => match PyDict.get e "id" with Some i => [i] | None => [] end
                     | _ => []
                     end) items.

(** The one message, when the condition holds. *)
Definition when (condition : bool) (message : string) : list string :=
  if condition then [message] else [].

Section ClosedForm.

Variable repr : json -> string.

(** The id an element is cited by. *)
Definition who (e : dict) : string :=
  Validator.str repr (match PyDict.get e "id" with Some i => i | None => JStr "?" end).

Definition lacks (e : dict) (field : string) : bool := negb (PyDict.has e field).

Definition event_errors (x : json) : list string :=
  match x with
  | JObj e =>
      when (lacks e "id") ("Event missing 'id': " +++ repr x)
      ++ when (lacks e "type") ("Event " +++ who e +++ " missing 'type'")
      ++ when (match PyDict.get e "type" with
               | Some type => Py.eq_str type "boundaryEvent"
               | None => false
               end && lacks e "attachedToRef")
           ("Boundary event " +++ who e +++ " missing 'attachedToRef'")
  | _ => []
  end.

(** [field not in agent], for an agent that is a container. *)
Definition agent_lacks (agent : json) (field : string) : bool :=
  match Py.contains field agent with
  | inr present => negb present
  | inl _ => false
  end.

Definition activity_errors (x : json) : list string :=
  match x with
  | JObj e =>
      when (lacks e "id") ("Activity missing 'id': " +++ repr x)
      ++ when (lacks e "name") ("Activity " +++ who e +++ " missing 'name'")
      ++ when (lacks e "type") ("Activity " +++ who e +++ " missing 'type'")
      ++ match PyDict.get e "agent" with
         | Some agent =>
             when (agent_lacks agent "type")
               ("Activity " +++ who e +++ " agent missing 'type'")
             ++ when (agent_lacks agent "strategy")
                  ("Activity " +++ who e +++ " agent missing 'strategy'")
         | None => []
         end
  | _ => []
  end.

Definition gateway_errors (x : json) : list string :=
  match x with
  | JObj e =>
      when (lacks e "id") ("Gateway missing 'id': " +++ repr x)
      ++ when (lacks e "type") ("Gateway " +++ who e +++ " missing 'type'")
  | _ => []
  end.

(** One end of a flow against the set [ids]. *)
Definition ref_errors (ids : list json) (e : dict) (field : string) : list string :=
  match PyDict.get e field with
  | None => ["Sequence flow " +++ who e +++ " missing '" +++ field +++ "'"]
  | Some ref =>
      when (negb (existsb (Validator.key_eqb ref) ids))
        ("Sequence flow " +++ who e +++ " has invalid " +++ field +++ ": "
           +++ Validator.str repr ref)
  end.

Definition flow_errors (ids : list json) (x : json) : list string :=
  match x with
  | JObj e =>
      when (lacks e "id") ("Sequence flow missing 'id': " +++ repr x)
      ++ ref_errors ids e "sourceRef"
      ++ ref_errors ids e "targetRef"
  | _ => []
  end.

(** The errors of the three kinds of elements, in the order found. *)
Definition element_errors (elements : dict) : list string :=
  flat_map event_errors (items_of elements "events")
  ++ flat_map activity_errors (items_of elements "activities")
  ++ flat_map gateway_errors (items_of elements "gateways").

(** Every id declared by an event, an activity or a gateway. *)
Definition all_declared (elements : dict) : list json :=
  declared_ids (items_of elements "events")
  ++ declared_ids (items_of elements "activities")
  ++ declared_ids (items_of elements "gateways").

Definition sequence_flow_errors (elements : dict) : list string :=
  flat_map (flow_errors (all_declared elements)) (items_of elements "sequenceFlows").

End ClosedForm.

(** *** Sample documents *)

(** The elements of the minimal document, its one flow ending at [target]. *)
Definition minimal_elements (target : string) : dict :=
  [ ("events", JArr [JObj [("id", JStr "e1"); ("type", JStr "startEvent")]]);
    ("activities",
     JArr [JObj [("id", JStr "a1"); ("name", JStr "Task"); ("type", JStr "task")]]);
    ("sequenceFlows",
     JArr [JObj [("id", JStr "f1"); ("sourceRef", JStr "e1"); ("targetRef", JStr target)]]) ].

Definition minimal_document (id name : json) (target : string) : json :=
  JObj [("process",
         JObj [("id", id); ("name", name); ("elements", JObj (minimal_elements target))])].

(** The three messages about the process itself. *)
Definition process_id_missing : string := "Process missing 'id' field".
Definition process_name_missing : string := "Process missing 'name' field".
Definition process_elements_missing : string := "Process missing 'elements' field".

(** The process object has no [elements], or has well-shaped ones. *)
Definition process_ok (p : dict) : bool :=
  match PyDict.get p "elements" with
  | Some (JObj elements) => elements_ok elements
  | Some _ => false
  | None => true
  end.

(** The errors below the process fields, in closed form. *)
Definition errors_below (repr : json -> string) (p : dict) : list string :=
  match PyDict.get p "elements" with
  | Some (JObj elements) =>
      element_errors repr elements ++ sequence_flow_errors repr elements
  | _ => []
  end.

(** *** The combiner: names, sources and sample schemas *)

(** The key under which definition [def_name] of schema [name] is merged. *)
Definition merged_key (name def_name : string) : string :=
  if String.eqb name "bpmn-process" then def_name
  else (PyStr.replace name "bpmn-" "" +++ "_") +++ def_name.

(** A schema document as the combiner expects it: an object whose
    [definitions], if any, are an object. *)
Definition schema_ok (schema : json) : bool :=
  match schema with
  | JObj d =>
      match PyDict.get d "definitions" with
      | Some (JObj _) | None => true
      | Some _ => false
      end
  | _ => false
  end.

(** The definitions of a schema document. *)
Definition definitions_of (schema : json) : dict :=
  match schema with
  | JObj d =>
      match PyDict.get d "definitions" with
      | Some (JObj definitions) => definitions
      | _ => []
      end
  | _ => []
  end.

(** The source document called [file], with or without its extension,
    defines [name]. *)
Definition source_defines (schemas : dict) (file name : string) : Prop :=
  exists stem schema,
    In (stem, schema) schemas
    /\ (file = stem +++ ".json" \/ file = stem)
    /\ PyDict.has (definitions_of schema) name = true.

(** The definitions of the documents of [schemas], merged in turn into
    [acc]. *)
Definition merged (schemas acc : dict) : dict :=
  fold_left (fun a (e : string * json) =>
               Combined.add_definitions (fst e) (definitions_of (snd e)) a)
            schemas acc.

(** The definitions of one schema under their merged keys, and those of
    all schemas in the order of the documents. *)
Definition renamed (name : string) (schema : json) : dict :=
  map (fun e => (merged_key name (fst e), snd e)) (definitions_of schema).

Definition renamed_entries (schemas : dict) : dict :=
  flat_map (fun e => renamed (fst e) (snd e)) schemas.


(** The document whose references are rewritten: the base document with
    the merged definitions in place of its own. *)
Definition before_rewrite (base merged : dict) : json :=
  JObj (PyDict.set "definitions" (JObj merged) base).

(** Six schema files of which the common one defines [X] and the process
    one defines [common_X]. *)
Definition string_schema : json := JObj [("type", JStr "string")].
Definition number_schema : json := JObj [("type", JStr "number")].

Definition colliding_files (path : string) : exc json :=
  if String.eqb path "schemas/bpmn-common.json"
  then ret (JObj [("definitions", JObj [("X", string_schema)])])
  else if String.eqb path "schemas/bpmn-process.json"
  then ret (JObj [("definitions", JObj [("common_X", number_schema)])])
  else ret (JObj []).

(** Six schema files of which the process one refers to a definition of
    the common one. *)
Definition referring_files (path : string) : exc json :=
  if String.eqb path "schemas/bpmn-common.json"
  then ret (JObj [("definitions", JObj [("Id", string_schema)])])
  else if String.eqb path "schemas/bpmn-process.json"
  then ret (JObj [("$id", JStr "bpmn-process.json");
                  ("properties",
                   JObj [("id", JObj [("$ref", JStr "bpmn-common.json#/definitions/Id")])])])
  else ret (JObj []).

(** A world in which one schema file is missing. *)
Definition world_without_agents : Combined.world := {|
  Combined.read_json := fun path =>
    if String.eqb path "schemas/bpmn-agents.json"
    then raise (FileError "No such file or directory")
    else ret (JObj []);
  Combined.open_for_writing := fun _ => ret tt;
  Combined.run := fun _ => ret (0%Z, "")
|}.

(** A text for the values that are not strings, for the sample runs. *)
Definition no_repr : json -> string := fun _ => "".

(** No message about an element or a flow starts like one about the
    process. *)
Definition below_process (m : string) : Prop := String.prefix "P" m = false.

(** *** The validator run on the samples *)

(** The command run on one sample. *)
Definition validator_argv (test_file : string) : list string :=
  ["ajv"; "validate"; "-s"; Combined.combined_path; "-d"; test_file].

(** The lines printed for one sample, given the return code and the
    error stream of the run. *)
Definition validation_lines (test_file : string) (result : Z * string) : list string :=
  (Combined.newline +++ "Validating " +++ test_file +++ "...")
    :: (if (fst result =? 0)%Z
        then ["✓ " +++ test_file +++ " is valid"]
        else ["✗ " +++ test_file +++ " validation failed:"; snd result]).

(** *** Valid documents *)

(** An event with an id and a type and, when it is a boundary event, with
    the activity it is attached to. *)
Definition event_valid (x : json) : bool :=
  match x with
  | JObj e =>
      PyDict.has e "id" && PyDict.has e "type"
      && (negb match PyDict.get e "type" with
               | Some type => Py.eq_str type "boundaryEvent"
               | None => false
               end
          || PyDict.has e "attachedToRef")
  | _ => false
  end.

(** An activity with an id, a name and a type, whose agent, if any, has
    a type and a strategy. *)
Definition activity_valid (x : json) : bool :=
  match x with
  | JObj e =>
      PyDict.has e "id" && PyDict.has e "name" && PyDict.has e "type"
      && match PyDict.get e "agent" with
         | Some agent => negb (agent_lacks agent "type") && negb (agent_lacks agent "strategy")
         | None => true
         end
  | _ => false
  end.

Definition gateway_valid (x : json) : bool :=
  match x with
  | JObj e => PyDict.has e "id" && PyDict.has e "type"
  | _ => false
  end.

(** One end of a flow is given and is one of [ids]. *)
Definition ref_valid (ids : list json) (e : dict) (field : string) : bool :=
  match PyDict.get e field with
  | Some ref => existsb (Validator.key_eqb ref) ids
  | None => false
  end.

Definition flow_valid (ids : list json) (x : json) : bool :=
  match x with
  | JObj e => PyDict.has e "id" && ref_valid ids e "sourceRef" && ref_valid ids e "targetRef"
  | _ => false
  end.

Definition elements_valid (elements : dict) : bool :=
  forallb event_valid (items_of elements "events")
  && forallb activity_valid (items_of elements "activities")
  && forallb gateway_valid (items_of elements "gateways")
  && forallb (flow_valid (all_declared elements)) (items_of elements "sequenceFlows").

(** A process with an id, a name and valid elements. *)
Definition process_valid (p : dict) : bool :=
  PyDict.has p "id" && PyDict.has p "name"
  && match PyDict.get p "elements" with
     | Some (JObj elements) => elements_valid elements
     | _ => false
     end.

(** A document of the expected shape: an object whose process, if any,
    is an object of the expected shape. *)
Definition document_ok (data : json) : bool :=
  match data with
  | JObj d =>
      match PyDict.get d "process" with
      | Some (JObj p) => process_ok p
      | Some _ => false
      | None => true
      end
  | _ => false
  end.

Definition document_valid (data : json) : bool :=
  match data with
  | JObj d =>
      match PyDict.get d "process" with
      | Some (JObj p) => process_valid p
      | _ => false
      end
  | _ => false
  end.

(** *** The lines of the batch runner *)

Definition testing_line (filepath : string) : string :=
  Combined.newline +++ "Testing " +++ filepath +++ "...".



(** A world in which the validator is not installed. *)
Definition world_without_validator : Combined.world := {|
  Combined.read_json := fun _ => ret (JObj []);
  Combined.open_for_writing := fun _ => ret tt;
  Combined.run := fun _ => raise (FileError "No such file or directory: 'ajv'")
|}.

(** A reader for which no sample file exists. *)
Definition no_samples (path : string) : exc json :=
  raise (FileError ("No such file or directory: " +++ path)).

(** * Proofs *)

(** One step of a computation in the error monad. *)
Ltac exc_step :=
  cbn [bind ret Monad_exc Monad_either Py.get Py.getitem Py.contains Py.iter].

(** ** Strings *)
Section StringFacts.

Lemma prefix_iff (p s : string) :
  String.prefix p s = true <-> exists t, s = p +++ t.
Proof.
  revert s. induction p as [|a p IH]; intros s.
  - split; [intros _; now exists s | intros _; now destruct s].
  - destruct s as [|b s]; simpl.
    + split; [discriminate | intros [t Ht]; discriminate].
    + destruct (ascii_dec a b) as [->|Hab].
      * rewrite IH. split; intros [t Ht]; exists t; [now rewrite Ht | now injection Ht].
      * split; [discriminate | intros [t Ht]; injection Ht; congruence].
Qed.

Lemma prefix_app (p t : string) : String.prefix p (p +++ t) = true.
Proof. apply prefix_iff. now exists t. Qed.

Lemma append_assoc (a b c : string) : (a +++ b) +++ c = a +++ b +++ c.
Proof. induction a; simpl; congruence. Qed.

Lemma append_nil_r (a : string) : a +++ "" = a.
Proof. induction a; simpl; congruence. Qed.

Lemma prefix_app_mono (p a u : string) :
  String.prefix p a = true -> String.prefix p (a +++ u) = true.
Proof.
  rewrite !prefix_iff. intros [t ->]. exists (t +++ u). apply append_assoc.
Qed.

(** A prefix of [a +++ u] lies within [a] or runs over its end. *)
Lemma prefix_app_cases (p a u : string) :
  String.prefix p (a +++ u) = true ->
  String.prefix p a = true \/ exists t, p = a +++ t /\ String.prefix t u = true.
Proof.
  revert p. induction a as [|x a IH]; intros p H.
  - right. now exists p.
  - destruct p as [|y p]; [now left|].
    simpl in H |- *. destruct (ascii_dec y x) as [->|]; [|discriminate].
    destruct (IH _ H) as [Hp | [t [-> Ht]]]; [now left|].
    right. now exists t.
Qed.

Lemma length_append (a b : string) :
  String.length (a +++ b) = String.length a + String.length b.
Proof. induction a; simpl; congruence. Qed.

Lemma contains_cons (p : string) (c : ascii) (s : string) :
  PyStr.contains p (String c s) = false ->
  String.prefix p (String c s) = false /\ PyStr.contains p s = false.
Proof. cbn [PyStr.contains]. intros H. now apply orb_false_iff in H. Qed.

Variable sep : string.
Variable c0 : ascii.
Variable rest : string.
Hypothesis sep_eq : sep = String c0 rest.

Lemma split_from_skip (u s : string) :
  PyStr.split_from sep (String.length u) (u +++ s) = PyStr.split_from sep 0 s.
Proof. induction u; simpl; auto. Qed.

Lemma split_from_match (t : string) :
  PyStr.split_from sep 0 (sep +++ t) = "" :: PyStr.split_from sep 0 t.
Proof.
  pose proof (prefix_app sep t) as Hp. rewrite sep_eq in *.
  cbn [String.append] in Hp. cbn [String.append PyStr.split_from]. rewrite Hp.
  cbn [String.length]. rewrite Nat.sub_succ, Nat.sub_0_r. f_equal.
  rewrite <- sep_eq. apply split_from_skip.
Qed.

Lemma split_from_nonempty (k : nat) (s : string) : PyStr.split_from sep k s <> [].
Proof.
  revert k. induction s as [|c s IH]; intros k; cbn [PyStr.split_from]; [discriminate|].
  destruct k; [|apply IH].
  destruct (String.prefix sep (String c s)); [discriminate|].
  destruct (PyStr.split_from sep 0 s); discriminate.
Qed.

Lemma split_from_no_match (b : string) :
  PyStr.contains sep b = false -> PyStr.split_from sep 0 b = [b].
Proof.
  induction b as [|c b IH]; intros H; [reflexivity|].
  apply contains_cons in H as [Hp Hc].
  cbn [PyStr.split_from]. rewrite Hp, (IH Hc). reflexivity.
Qed.

Lemma contains_sep_nil : PyStr.contains sep "" = false.
Proof. rewrite sep_eq. reflexivity. Qed.

(** [split] cuts at occurrences of the separator and leaves none inside
    a piece. *)
Lemma split_from_spec (n : nat) (s : string) :
  String.length s <= n ->
  s = join sep (PyStr.split_from sep 0 s)
  /\ Forall (fun piece => PyStr.contains sep piece = false) (PyStr.split_from sep 0 s).
Proof.
  revert s. induction n as [|n IH]; intros s Hn.
  - destruct s; [|simpl in Hn; lia]. simpl. split; [reflexivity|].
    constructor; [apply contains_sep_nil | constructor].
  - destruct s as [|c s].
    { simpl. split; [reflexivity|]. constructor; [apply contains_sep_nil | constructor]. }
    destruct (String.prefix sep (String c s)) eqn:Hp.
    + apply prefix_iff in Hp as [t Ht]. rewrite Ht, split_from_match.
      assert (Ht' : String.length t <= n).
      { apply (f_equal String.length) in Ht. rewrite length_append, sep_eq in Ht.
        simpl in Ht, Hn. lia. }
      destruct (IH t Ht') as [Hj Hf].
      pose proof (split_from_nonempty 0 t) as Hne.
      destruct (PyStr.split_from sep 0 t) as [|q qs] eqn:Hs; [congruence|].
      split.
      * change (join sep ("" :: q :: qs)) with (sep +++ join sep (q :: qs)). now rewrite <- Hj.
      * constructor; [apply contains_sep_nil | assumption].
    + cbn [PyStr.split_from]. rewrite Hp.
      assert (Hs' : String.length s <= n) by (simpl in Hn; lia).
      destruct (IH s Hs') as [Hj Hf].
      pose proof (split_from_nonempty 0 s) as Hne.
      destruct (PyStr.split_from sep 0 s) as [|q qs] eqn:Hs; [congruence|].
      pose proof (proj1 (Forall_cons_iff _ _ _) Hf) as [Hq Hqs].
      split.
      * destruct qs as [|q' qs]; cbn [join] in *; simpl; now rewrite <- Hj.
      * constructor; [|assumption].
        cbn [PyStr.contains]. rewrite Hq, orb_false_r.
        destruct (String.prefix sep (String c q)) eqn:Hcq; [|reflexivity].
        exfalso. rewrite Hj in Hp.
        destruct qs as [|q' qs].
        -- cbn [join] in Hp. congruence.
        -- change (join sep (q :: q' :: qs)) with (q +++ sep +++ join sep (q' :: qs)) in Hp.
           apply (prefix_app_mono _ _ (sep +++ join sep (q' :: qs))) in Hcq.
           cbn [String.append] in Hcq. congruence.
Qed.

Lemma split_two (s a b : string) :
  PyStr.split s sep = [a; b] ->
  s = a +++ sep +++ b /\ PyStr.contains sep a = false /\ PyStr.contains sep b = false.
Proof.
  unfold PyStr.split. intros H.
  destruct (split_from_spec (String.length s) s (le_n _)) as [Hj Hf].
  rewrite H in Hj, Hf. cbn [join] in Hj.
  pose proof (proj1 (Forall_cons_iff _ _ _) Hf) as [Ha Hf'].
  pose proof (proj1 (Forall_cons_iff _ _ _) Hf') as [Hb _].
  auto.
Qed.

Lemma char_in_app (c : ascii) (a b : string) :
  char_in c b -> char_in c (a +++ b).
Proof. induction a; simpl; auto. Qed.

Hypothesis first_char_once : ~ char_in c0 rest.

(** When the first character of the separator does not come again in
    it, no occurrence overlaps another, and a string with one
    occurrence splits in two at it. *)
Lemma split_once (a b : string) :
  PyStr.contains sep a = false -> PyStr.contains sep b = false ->
  PyStr.split (a +++ sep +++ b) sep = [a; b].
Proof.
  unfold PyStr.split. intros Ha Hb. induction a as [|x a IH].
  - simpl. rewrite split_from_match, (split_from_no_match b Hb). reflexivity.
  - apply contains_cons in Ha as [Hp Hc].
    assert (Hn : String.prefix sep (String x a +++ sep +++ b) = false).
    { destruct (String.prefix sep (String x a +++ sep +++ b)) eqn:E; [|reflexivity].
      exfalso. apply prefix_app_cases in E as [E | [t [Ht Hpt]]]; [congruence|].
      destruct t as [|y t].
      - rewrite append_nil_r in Ht. rewrite <- Ht in Hp.
        pose proof (prefix_app sep "") as Hx. rewrite append_nil_r in Hx. congruence.
      - rewrite sep_eq in Ht, Hpt. simpl in Ht, Hpt.
        destruct (ascii_dec y c0) as [->|]; [|discriminate].
        injection Ht as _ Hr. apply first_char_once. rewrite Hr.
        apply char_in_app. simpl. now left. }
    change (String x a +++ sep +++ b) with (String x (a +++ sep +++ b)) in *.
    cbn [PyStr.split_from]. rewrite Hn, (IH Hc). reflexivity.
Qed.

End StringFacts.

(** ** Dictionaries *)
Section DictFacts.

Lemma bind_inr {A B : Type} (x : A) (k : A -> exc B) : bind (inr x : exc A) k = k x.
Proof. reflexivity. Qed.

Lemma has_get (e : dict) (k : string) :
  PyDict.has e k = match PyDict.get e k with Some _ => true | None => false end.
Proof. reflexivity. Qed.

Lemma eqb_string_refl (k : string) : String.eqb k k = true.
Proof. apply String.eqb_refl. Qed.

Lemma nodupb_iff (l : list string) : nodupb l = true <-> NoDup l.
Proof.
  induction l as [|k l IH]; simpl.
  - split; [constructor | reflexivity].
  - rewrite andb_true_iff, negb_true_iff, IH. split.
    + intros [Hk Hl]. constructor; [|assumption].
      intros Hin. assert (existsb (String.eqb k) l = true); [|congruence].
      apply existsb_exists. exists k. split; [assumption | apply String.eqb_refl].
    + intros H. inversion H as [|? ? Hk Hl]; subst. split; [|assumption].
      destruct (existsb (String.eqb k) l) eqn:E; [|reflexivity].
      apply existsb_exists in E as [k' [Hin Heq]].
      apply String.eqb_eq in Heq. subst. contradiction.
Qed.

Lemma has_iff (d : dict) (k : string) : PyDict.has d k = true <-> In k (PyDict.keys d).
Proof.
  unfold PyDict.has. induction d as [|[k' v] d IH]; simpl.
  - split; [discriminate | contradiction].
  - destruct (String.eqb_spec k k') as [->|Hne].
    + split; auto.
    + rewrite IH. split; [auto | intros [?|?]; congruence].
Qed.

Lemma has_false_iff (d : dict) (k : string) :
  PyDict.has d k = false <-> ~ In k (PyDict.keys d).
Proof. rewrite <- has_iff. destruct (PyDict.has d k); split; congruence. Qed.

Lemma get_in (d : dict) (k : string) (v : json) :
  PyDict.get d k = Some v -> In (k, v) d.
Proof.
  induction d as [|[k' v'] d IH]; simpl; [discriminate|].
  destruct (String.eqb_spec k k') as [->|Hne].
  - intros [= ->]. now left.
  - auto.
Qed.

Lemma in_get (d : dict) (k : string) (v : json) :
  NoDup (PyDict.keys d) -> In (k, v) d -> PyDict.get d k = Some v.
Proof.
  induction d as [|[k' v'] d IH]; simpl; [contradiction|].
  intros Hnd Hin. inversion Hnd as [|? ? Hk Hd]; subst.
  destruct Hin as [[= -> ->]|Hin].
  - now rewrite String.eqb_refl.
  - destruct (String.eqb_spec k k') as [->|Hne]; [|auto].
    exfalso. apply Hk. change k' with (fst (k', v)). now apply in_map.
Qed.

Lemma get_set_same (d : dict) (k : string) (v : json) :
  PyDict.get (PyDict.set k v d) k = Some v.
Proof.
  induction d as [|[k' v'] d IH]; simpl.
  - now rewrite String.eqb_refl.
  - destruct (String.eqb_spec k k') as [->|Hne]; simpl.
    + now rewrite String.eqb_refl.
    + destruct (String.eqb_spec k k'); [contradiction | assumption].
Qed.

Lemma get_set_other (d : dict) (k k' : string) (v : json) :
  k' <> k -> PyDict.get (PyDict.set k v d) k' = PyDict.get d k'.
Proof.
  intros Hne. induction d as [|[k0 v0] d IH]; simpl.
  - destruct (String.eqb_spec k' k); [contradiction | reflexivity].
  - destruct (String.eqb_spec k k0) as [->|Hk]; simpl.
    + destruct (String.eqb_spec k' k0); [contradiction | reflexivity].
    + now rewrite IH.
Qed.

Lemma has_set (d : dict) (k k' : string) (v : json) :
  PyDict.has (PyDict.set k v d) k' = String.eqb k' k || PyDict.has d k'.
Proof.
  unfold PyDict.has. destruct (String.eqb_spec k' k) as [->|Hne].
  - now rewrite get_set_same.
  - now rewrite get_set_other.
Qed.

Lemma set_fresh (d : dict) (k : string) (v : json) :
  PyDict.has d k = false -> PyDict.set k v d = d ++ [(k, v)].
Proof.
  unfold PyDict.has. induction d as [|[k' v'] d IH]; simpl; [reflexivity|].
  destruct (String.eqb k k'); [discriminate|].
  intros H. now rewrite IH.
Qed.

Lemma keys_set (d : dict) (k : string) (v : json) :
  PyDict.keys (PyDict.set k v d)
  = if PyDict.has d k then PyDict.keys d else PyDict.keys d ++ [k].
Proof.
  unfold PyDict.has, PyDict.keys. induction d as [|[k' v'] d IH]; simpl; [reflexivity|].
  destruct (String.eqb_spec k k') as [->|Hne]; simpl; [reflexivity|].
  rewrite IH. now destruct (PyDict.get d k).
Qed.

Lemma nodup_keys_set (d : dict) (k : string) (v : json) :
  NoDup (PyDict.keys d) -> NoDup (PyDict.keys (PyDict.set k v d)).
Proof.
  intros Hnd. rewrite keys_set. destruct (PyDict.has d k) eqn:E; [assumption|].
  apply has_false_iff in E.
  apply NoDup_app; [assumption | repeat constructor; intros [] |].
  intros a Ha [->|[]]. contradiction.
Qed.

(** Assigning under fresh, pairwise distinct keys appends the entries
    in order. *)
Lemma fold_set_fresh (f : string * json -> json) (entries acc : dict) :
  NoDup (PyDict.keys entries) ->
  (forall k, In k (PyDict.keys entries) -> PyDict.has acc k = false) ->
  fold_left (fun a e => PyDict.set (fst e) (f e) a) entries acc
  = acc ++ map (fun e => (fst e, f e)) entries.
Proof.
  revert acc. induction entries as [|[k v] entries IH]; intros acc Hnd Hfresh; simpl.
  - now rewrite app_nil_r.
  - inversion Hnd as [|? ? Hk Hd]; subst.
    rewrite (set_fresh acc k); [|apply Hfresh; now left].
    rewrite IH; [now rewrite <- app_assoc | assumption |].
    intros k' Hin. apply has_false_iff. unfold PyDict.keys. rewrite map_app. simpl.
    intros Hin'. apply in_app_or in Hin' as [Hin'|[->|[]]].
    + apply (proj1 (has_false_iff acc k')); [apply Hfresh; now right | assumption].
    + contradiction.
Qed.

End DictFacts.

(** ** The reference rewrite *)
Section UpdateRefs.

Lemma marker_eq : marker = String "#"%char "/definitions/".
Proof. reflexivity. Qed.

Lemma marker_first_once : ~ char_in "#"%char "/definitions/".
Proof. simpl. intros H. repeat (destruct H as [H|H]; [discriminate|]). exact H. Qed.

Lemma starts_with_file (a u : string) :
  String.prefix "bpmn-" (a +++ marker +++ u) = true -> String.prefix "bpmn-" a = true.
Proof.
  intros H. apply prefix_app_cases in H as [H | [t [Ht Hpt]]]; [assumption|].
  destruct a as [|c1 [|c2 [|c3 [|c4 [|c5 a]]]]]; simpl in Ht;
    inversion Ht; subst; simpl in Hpt; try discriminate.
  simpl. now destruct a.

Qed.

Lemma local_ref_external (value file name : string) :
  external_form value file name -> Combined.local_ref value = pointer_to file name.
Proof.
  intros (-> & Hs & Hf & Hn). unfold Combined.local_ref, PyStr.startswith.
  rewrite (prefix_app_mono _ _ _ Hs).
  change "#/definitions/" with marker.
  rewrite (split_once marker _ _ marker_eq marker_first_once _ _ Hf Hn).
  unfold pointer_to. destruct (String.eqb _ "bpmn-process"); [reflexivity|].
  now rewrite append_assoc.
Qed.

Lemma local_ref_other (value : string) :
  (forall file name, ~ external_form value file name) -> Combined.local_ref value = value.
Proof.
  intros H. unfold Combined.local_ref, PyStr.startswith.
  destruct (String.prefix "bpmn-" value) eqn:Hs; [|reflexivity].
  change "#/definitions/" with marker.
  destruct (PyStr.split value marker) as [|a [|b [|c l]]] eqn:E; try reflexivity.
  exfalso. apply (split_two marker _ _ marker_eq) in E as (-> & Ha & Hb).
  apply (H a b). repeat split; try assumption.
  now apply starts_with_file in Hs.
Qed.

Lemma fold_left_agree {A B : Type} (f g : A -> B -> A) (l : list B) (a : A) :
  (forall x y, f x y = g x y) -> fold_left f l a = fold_left g l a.
Proof.
  intros H. revert a. induction l as [|y l IH]; intros a; simpl; [reflexivity|].
  now rewrite H, IH.
Qed.

(** On an object with distinct keys the rewrite keeps every key in its
    place and gives each its rewritten value. *)
Lemma update_refs_obj (schema_name : string) (entries : dict) :
  NoDup (PyDict.keys entries) ->
  Combined.update_refs (JObj entries) schema_name
  = JObj (map (fun e => (fst e, rewritten_value schema_name e)) entries).
Proof.
  intros Hnd. cbn [Combined.update_refs]. f_equal.
  change (map (fun e => (fst e, rewritten_value schema_name e)) entries)
    with ([] ++ map (fun e => (fst e, rewritten_value schema_name e)) entries).
  rewrite <- (fold_set_fresh (rewritten_value schema_name) entries []) by (auto; reflexivity).
  apply fold_left_agree. intros acc [k v]. unfold rewritten_value. simpl.
  destruct (String.eqb k "$ref"); [destruct v|]; reflexivity.
Qed.

End UpdateRefs.

Section UpdateRefsSpec.

Lemma local_ref_rewritten (value : string) :
  ref_rewritten value (Combined.local_ref value).
Proof.
  unfold Combined.local_ref, PyStr.startswith.
  destruct (String.prefix "bpmn-" value) eqn:Hs.
  - change "#/definitions/" with marker.
    destruct (PyStr.split value marker) as [|a [|b [|c l]]] eqn:E.
    1, 2, 4: (apply ref_other; intros file name Hx;
              pose proof Hx as (-> & _ & Hf & Hn);
              rewrite (split_once marker _ _ marker_eq marker_first_once _ _ Hf Hn) in E;
              discriminate).
    pose proof E as E'.
    apply (split_two marker _ _ marker_eq) in E as (Hv & Ha & Hb).
    assert (Hx : external_form value a b).
    { repeat split; try assumption. subst value. now apply starts_with_file in Hs. }
    pose proof (local_ref_external _ _ _ Hx) as Hl.
    unfold Combined.local_ref, PyStr.startswith in Hl.
    change "#/definitions/" with marker in Hl. rewrite Hs, E' in Hl. rewrite Hl.
    now apply ref_external.
  - apply ref_other. intros file name (-> & Hf & _).
    apply (prefix_app_mono _ _ (marker +++ name)) in Hf.
    unfold PyStr.startswith in Hf. congruence.
Qed.

Lemma external_form_unique (value file name file' name' : string) :
  external_form value file name -> external_form value file' name' ->
  file = file' /\ name = name'.
Proof.
  intros (-> & _ & Hf & Hn) (E & _ & Hf' & Hn').
  pose proof (split_once marker _ _ marker_eq marker_first_once _ _ Hf Hn) as H.
  rewrite E, (split_once marker _ _ marker_eq marker_first_once _ _ Hf' Hn') in H.
  injection H as -> ->. auto.
Qed.

(** The relation gives every reference one new value. *)
Lemma ref_rewritten_functional (value new new' : string) :
  ref_rewritten value new -> ref_rewritten value new' -> new = new'.
Proof.
  intros [v f n Hx | v Hn] H'; inversion H' as [v' f' n' Hx' | v' Hn']; subst.
  - destruct (external_form_unique _ _ _ _ _ Hx Hx') as [-> ->]. reflexivity.
  - now destruct (Hn' f n).
  - now destruct (Hn f' n').
  - reflexivity.
Qed.

Lemma wf_json_obj (entries : dict) :
  wf_json (JObj entries) = true ->
  NoDup (PyDict.keys entries) /\ Forall (fun e => wf_json (snd e) = true) entries.
Proof.
  cbn [wf_json]. rewrite andb_true_iff, nodupb_iff, forallb_forall, Forall_forall. auto.
Qed.

Lemma wf_json_arr (items : list json) :
  wf_json (JArr items) = true -> Forall (fun v => wf_json v = true) items.
Proof. cbn [wf_json]. now rewrite forallb_forall, Forall_forall. Qed.

End UpdateRefsSpec.

(** C1 (as amended).  On every parsed document the recursive rewrite
    returns the same document, at any depth of objects and arrays, except
    that a string stored under ["$ref"] which reads
    [<file>#/definitions/<name>], with [<file>] starting with ["bpmn-"] and
    the marker occurring once, becomes ["#/definitions/<name>"] when
    [<file>] without every [".json"] is ["bpmn-process"], and
    ["#/definitions/<prefix>_<name>"] otherwise, [<prefix>] being [<file>]
    without every [".json"] and without every ["bpmn-"]; any other value
    stored under ["$ref"] and every other entry is unchanged. *)
Theorem update_refs_rewritten (schema_name : string) (v : json) :
  wf_json v = true -> rewritten v (Combined.update_refs v schema_name).
Proof.
  induction v as [| | | | |items IH|entries IH] using json_ind; intros Hwf.
  1-5: constructor.
  - apply wf_json_arr in Hwf. cbn [Combined.update_refs]. constructor.
    induction items as [|x items IHl]; simpl; constructor.
    + apply (Forall_inv IH), (Forall_inv Hwf).
    + apply IHl; [apply (Forall_inv_tail IH) | apply (Forall_inv_tail Hwf)].
  - apply wf_json_obj in Hwf as [Hnd Hwf].
    rewrite (update_refs_obj _ _ Hnd). constructor. clear Hnd.
    induction entries as [|[k x] entries IHl]; simpl; constructor.
    + unfold rewritten_value. simpl.
      pose proof (Forall_inv IH (Forall_inv Hwf)) as Hx. simpl in Hx.
      destruct (String.eqb_spec k "$ref") as [->|Hk].
      * destruct x; try (apply entry_other; [right; discriminate | assumption]).
        apply entry_ref, local_ref_rewritten.
      * apply entry_other; [now left | assumption].
    + apply IHl; [apply (Forall_inv_tail IH) | apply (Forall_inv_tail Hwf)].
Qed.

Lemma update_refs_rewritten_witness :
  rewritten
    (JObj [("$ref", JStr "bpmn-common.json#/definitions/Id");
           ("items", JArr [JObj [("$ref", JStr "#/definitions/Local")]])])
    (Combined.update_refs
       (JObj [("$ref", JStr "bpmn-common.json#/definitions/Id");
              ("items", JArr [JObj [("$ref", JStr "#/definitions/Local")]])])
       "bpmn-process").
Proof. apply update_refs_rewritten. reflexivity. Defined.

(** C1, as stated, fails where ["bpmn-"] comes again inside the file
    part: the claim removes the leading token only, the code every one. *)
Lemma update_refs_leading_token_counterexample :
  external_form "bpmn-a-bpmn-b.json#/definitions/X" "bpmn-a-bpmn-b.json" "X"
  /\ spec_pointer "bpmn-a-bpmn-b.json" "X" = "#/definitions/a-bpmn-b_X"
  /\ Combined.update_refs
       (JObj [("$ref", JStr "bpmn-a-bpmn-b.json#/definitions/X")]) "bpmn-process"
     = JObj [("$ref", JStr "#/definitions/a-b_X")]
  /\ Combined.update_refs
       (JObj [("$ref", JStr "bpmn-a-bpmn-b.json#/definitions/X")]) "bpmn-process"
     <> JObj [("$ref", JStr (spec_pointer "bpmn-a-bpmn-b.json" "X"))].
Proof.
  repeat split; try reflexivity. vm_compute. discriminate.
Qed.

(** ** Loading and writing *)
Section Loading.

Lemma load_schemas_failure (read : string -> exc json) (path : string) (e : exn)
      (files : list string) (schemas : dict) :
  In path files -> read path = inl e ->
  exists e', Combined.load_schemas read files schemas = inl e'.
Proof.
  intros Hin Hread. revert schemas.
  induction files as [|f files IH]; intros schemas; [contradiction|].
  cbn [Combined.load_schemas]. destruct (read f) as [e0|doc] eqn:Hf.
  - exists e0. reflexivity.
  - destruct Hin as [->|Hin]; [congruence|].
    destruct (IH Hin (PyDict.set (PyStr.stem f) doc schemas)) as [e' He'].
    exists e'. exact He'.
Qed.

End Loading.

(** C5.  When one of the schema files cannot be loaded, whether it is
    missing or is not JSON, [combine_schemas] ends with an exception and
    has done nothing by then: the combined schema is not written, in part
    or in whole, and nothing is printed. *)
Theorem combine_schemas_load_failure
        (w : Combined.world) (trace : list Combined.event) (path : string) (e : exn) :
  In path Combined.schema_files ->
  Combined.read_json w path = inl e ->
  exists e', Combined.combine_schemas w trace = (trace, inl e').
Proof.
  intros Hin Hread.
  destruct (load_schemas_failure _ _ _ Combined.schema_files [] Hin Hread) as [e' He'].
  exists e'. unfold Combined.combine_schemas, Combined.lift.
  cbn [bind Combined.Monad_io]. now rewrite He'.
Qed.

Lemma combine_schemas_load_failure_witness :
  exists e', Combined.combine_schemas world_without_agents [] = ([], inl e').
Proof.
  apply (combine_schemas_load_failure world_without_agents [] "schemas/bpmn-agents.json"
           (FileError "No such file or directory")).
  - simpl. auto 10.
  - reflexivity.
Defined.

(** ** Merging the definitions *)
Section MergeFacts.

Lemma add_definitions_step (name : string) (definitions acc : dict) :
  Combined.add_definitions name definitions acc
  = fold_left (fun a (e : string * json) => PyDict.set (merged_key name (fst e)) (snd e) a)
              definitions acc.
Proof.
  unfold Combined.add_definitions. apply fold_left_agree.
  intros a [n v]. unfold merged_key. now destruct (String.eqb name "bpmn-process").
Qed.

Lemma add_definitions_has (name : string) (definitions acc : dict) (k : string) :
  PyDict.has (Combined.add_definitions name definitions acc) k
  = PyDict.has acc k
    || existsb (fun e => String.eqb k (merged_key name (fst e))) definitions.
Proof.
  rewrite add_definitions_step. revert acc.
  induction definitions as [|[n v] definitions IH]; intros acc; cbn [fold_left existsb fst snd].
  - now rewrite orb_false_r.
  - rewrite IH, has_set.
    destruct (String.eqb k (merged_key name n)), (PyDict.has acc k); reflexivity.
Qed.

Lemma add_definitions_nodup (name : string) (definitions acc : dict) :
  NoDup (PyDict.keys acc) ->
  NoDup (PyDict.keys (Combined.add_definitions name definitions acc)).
Proof.
  rewrite add_definitions_step. revert acc.
  induction definitions as [|[n v] definitions IH]; intros acc H; cbn [fold_left]; [assumption|].
  apply IH. now apply nodup_keys_set.
Qed.

Lemma set_values (Q : json -> Prop) (k : string) (v : json) (d : dict) :
  Forall (fun e => Q (snd e)) d -> Q v -> Forall (fun e => Q (snd e)) (PyDict.set k v d).
Proof.
  intros Hd Hv. induction d as [|[k' v'] d IH]; cbn [PyDict.set].
  - now constructor.
  - destruct (String.eqb k k').
    + constructor; [assumption | now apply Forall_inv_tail in Hd].
    + constructor; [now apply Forall_inv in Hd | apply IH; now apply Forall_inv_tail in Hd].
Qed.

Lemma add_definitions_values (Q : json -> Prop) (name : string) (definitions acc : dict) :
  Forall (fun e => Q (snd e)) acc -> Forall (fun e => Q (snd e)) definitions ->
  Forall (fun e => Q (snd e)) (Combined.add_definitions name definitions acc).
Proof.
  rewrite add_definitions_step. revert acc.
  induction definitions as [|[n v] definitions IH]; intros acc Ha Hd; cbn [fold_left];
    [assumption|].
  apply IH; [|now apply Forall_inv_tail in Hd].
  apply set_values; [assumption | now apply Forall_inv in Hd].
Qed.

(** On schema documents of the expected shape the merge returns, and
    adds the definitions of each document in turn. *)
Lemma merge_definitions_ok (schemas acc : dict) :
  Forall (fun e => schema_ok (snd e) = true) schemas ->
  Combined.merge_definitions schemas acc = inr (merged schemas acc).
Proof.
  revert acc. induction schemas as [|[name schema] schemas IH]; intros acc H; [reflexivity|].
  pose proof (Forall_inv H) as Hs. cbn [snd] in Hs. apply Forall_inv_tail in H.
  cbn [Combined.merge_definitions merged fold_left fst snd].
  destruct schema as [| | | | | |d]; try discriminate.
  cbn [schema_ok definitions_of] in *. exc_step. rewrite has_get.
  destruct (PyDict.get d "definitions") as [[| | | | | |definitions]|]; try discriminate.
  - exc_step. cbn [Py.items]. exc_step. now apply IH.
  - change (Combined.add_definitions name [] acc) with acc. now apply IH.
Qed.

Lemma merged_has_acc (schemas acc : dict) (k : string) :
  PyDict.has acc k = true -> PyDict.has (merged schemas acc) k = true.
Proof.
  revert acc. induction schemas as [|[name schema] schemas IH]; intros acc H; [assumption|].
  cbn [merged fold_left]. apply IH. rewrite add_definitions_has, H. reflexivity.
Qed.

(** Every definition of every source document has its key in the
    merged map. *)
Lemma merged_has (schemas acc : dict) (name : string) (schema : json) (def_name : string) :
  In (name, schema) schemas ->
  PyDict.has (definitions_of schema) def_name = true ->
  PyDict.has (merged schemas acc) (merged_key name def_name) = true.
Proof.
  revert acc. induction schemas as [|[name' schema'] schemas IH]; intros acc Hin Hd;
    [contradiction|].
  cbn [merged fold_left fst snd]. destruct Hin as [[= -> ->]|Hin]; [|now apply IH].
  apply merged_has_acc. rewrite add_definitions_has.
  apply orb_true_iff. right. apply existsb_exists.
  apply has_iff in Hd. unfold PyDict.keys in Hd. apply in_map_iff in Hd as [[n v] [Hn Hv]].
  exists (n, v). split; [assumption|]. cbn [fst] in *. subst. apply String.eqb_refl.
Qed.

Lemma merged_nodup (schemas acc : dict) :
  NoDup (PyDict.keys acc) -> NoDup (PyDict.keys (merged schemas acc)).
Proof.
  revert acc. induction schemas as [|[name schema] schemas IH]; intros acc H; [assumption|].
  cbn [merged fold_left]. apply IH. now apply add_definitions_nodup.
Qed.

Lemma definitions_of_wf (schema : json) :
  wf_json schema = true -> Forall (fun e => wf_json (snd e) = true) (definitions_of schema).
Proof.
  destruct schema as [| | | | | |d]; try (intros _; constructor).
  intros H. apply wf_json_obj in H as [_ H]. cbn [definitions_of].
  destruct (PyDict.get d "definitions") as [[| | | | | |definitions]|] eqn:E;
    try constructor.
  apply get_in in E. rewrite Forall_forall in H. apply H in E. cbn [snd] in E.
  now apply wf_json_obj in E as [_ E].
Qed.

Lemma merged_wf (schemas acc : dict) :
  Forall (fun e => wf_json (snd e) = true) schemas ->
  Forall (fun e => wf_json (snd e) = true) acc ->
  Forall (fun e => wf_json (snd e) = true) (merged schemas acc).
Proof.
  revert acc. induction schemas as [|[name schema] schemas IH]; intros acc Hs Ha; [assumption|].
  cbn [merged fold_left fst snd]. apply IH; [now apply Forall_inv_tail in Hs|].
  apply (add_definitions_values (fun v => wf_json v = true)); [assumption|].
  apply definitions_of_wf. now apply Forall_inv in Hs.
Qed.

End MergeFacts.

(** ** The merge without collisions *)
Section MergeExact.

Lemma nodup_app_disjoint {A : Type} (l1 l2 : list A) (a : A) :
  NoDup (l1 ++ l2) -> In a l1 -> ~ In a l2.
Proof.
  induction l1 as [|x l1 IH]; [contradiction|].
  cbn [app]. intros H [->|Hin] Hin2.
  - apply NoDup_cons_iff in H as [H _]. apply H, in_or_app. now right.
  - apply NoDup_cons_iff in H as [_ H]. now apply (IH H Hin).
Qed.

Lemma add_definitions_renamed (name : string) (schema : json) (acc : dict) :
  NoDup (PyDict.keys (acc ++ renamed name schema)) ->
  Combined.add_definitions name (definitions_of schema) acc = acc ++ renamed name schema.
Proof.
  intros H. rewrite add_definitions_step.
  assert (Hf : forall (l : dict) (a : dict),
             fold_left (fun a e => PyDict.set (merged_key name (fst e)) (snd e) a) l a
             = fold_left (fun a e => PyDict.set (fst e) (snd e) a)
                         (map (fun e => (merged_key name (fst e), snd e)) l) a)
    by (induction l as [|e l IHl]; intros a; cbn [fold_left map fst snd]; auto).
  rewrite Hf. fold (renamed name schema).
  unfold PyDict.keys in H. rewrite map_app in H.
  rewrite (fold_set_fresh snd).
  - f_equal. rewrite <- (map_id (renamed name schema)) at 2.
    apply map_ext. now intros [k v].
  - now apply NoDup_app_remove_l in H.
  - intros k Hk. apply has_false_iff. intros Hacc.
    now apply (nodup_app_disjoint _ _ k H).
Qed.

(** When no two definitions get the same key, the merged map holds, in
    the order of the documents, each definition of each document under
    its key and nothing else. *)
Lemma merged_exact (schemas acc : dict) :
  NoDup (PyDict.keys (acc ++ renamed_entries schemas)) ->
  merged schemas acc = acc ++ renamed_entries schemas.
Proof.
  revert acc. induction schemas as [|[name schema] schemas IH]; intros acc H.
  - cbn. now rewrite app_nil_r.
  - cbn [merged fold_left renamed_entries flat_map fst snd] in *.
    rewrite app_assoc in H. rewrite add_definitions_renamed.
    + fold (merged schemas (acc ++ renamed name schema)).
      rewrite (IH _ H). now rewrite <- app_assoc.
    + unfold PyDict.keys in *. rewrite map_app in H. now apply NoDup_app_remove_r in H.
Qed.


End MergeExact.

(** ** The claims about the merged definitions *)

(** C4, on the code.  The common schema defines [X] and the process
    schema defines [common_X]: these two entries of different documents
    are merged under the one key [common_X], and the merged map keeps the
    definition of the process schema only. *)
Theorem merge_definitions_collision :
  exists schemas,
    Combined.load_schemas colliding_files Combined.schema_files [] = inr schemas
    /\ ("bpmn-common", "X") <> ("bpmn-process", "common_X")
    /\ merged_key "bpmn-common" "X" = merged_key "bpmn-process" "common_X"
    /\ Combined.merge_definitions schemas [] = inr [("common_X", number_schema)].
Proof.
  eexists. split; [reflexivity|]. repeat split. discriminate.
Qed.

(** C2, on the code.  With the same six files the merged map does not
    hold the pair of the prefixed name and the definition of the common
    schema, though that schema has a [definitions] key with [X] in it. *)
Theorem merge_definitions_drops_entry :
  exists schemas merged,
    Combined.load_schemas colliding_files Combined.schema_files [] = inr schemas
    /\ PyDict.get schemas "bpmn-common"
       = Some (JObj [("definitions", JObj [("X", string_schema)])])
    /\ Combined.merge_definitions schemas [] = inr merged
    /\ ~ In (merged_key "bpmn-common" "X", string_schema) merged.
Proof.
  do 2 eexists. split; [reflexivity|]. split; [reflexivity|]. split; [reflexivity|].
  intros [H|[]]. discriminate.
Qed.

(** ** References before and after the rewrite *)
Section RefsFacts.

Variable schema_name : string.

Lemma refs_of_entry_rewritten (k : string) (x : json) :
  refs_of (Combined.update_refs x schema_name) = map Combined.local_ref (refs_of x) ->
  refs_of (JObj [(k, rewritten_value schema_name (k, x))])
  = map Combined.local_ref (refs_of (JObj [(k, x)])).
Proof.
  intros IH. cbn [refs_of flat_map fst snd]. unfold rewritten_value. cbn [fst snd].
  rewrite !app_nil_r.
  destruct (String.eqb k "$ref"); [|assumption].
  destruct x; try assumption. reflexivity.
Qed.

(** The references of the rewritten document are the rewritten
    references of the document, in order. *)
Lemma refs_of_update_refs (v : json) :
  wf_json v = true ->
  refs_of (Combined.update_refs v schema_name) = map Combined.local_ref (refs_of v).
Proof.
  induction v as [| | | | |items IH|entries IH] using json_ind; intros Hwf;
    try reflexivity.
  - apply wf_json_arr in Hwf. cbn [Combined.update_refs refs_of].
    induction items as [|x items IHl]; [reflexivity|].
    cbn [map flat_map]. rewrite map_app.
    rewrite (Forall_inv IH (Forall_inv Hwf)).
    f_equal. apply IHl; [apply (Forall_inv_tail IH) | apply (Forall_inv_tail Hwf)].
  - apply wf_json_obj in Hwf as [Hnd Hwf]. rewrite (update_refs_obj _ _ Hnd). clear Hnd.
    induction entries as [|[k x] entries IHl]; [reflexivity|].
    pose proof (refs_of_entry_rewritten k x (Forall_inv IH (Forall_inv Hwf))) as Hx.
    cbn [refs_of flat_map map fst snd] in Hx |- *. rewrite !app_nil_r in Hx.
    rewrite map_app, Hx. f_equal.
    apply IHl; [apply (Forall_inv_tail IH) | apply (Forall_inv_tail Hwf)].
Qed.

Lemma get_map_entries (f : string * json -> json) (d : dict) (k : string) :
  PyDict.get (map (fun e => (fst e, f e)) d) k
  = match PyDict.get d k with Some v => Some (f (k, v)) | None => None end.
Proof.
  induction d as [|[k' v'] d IH]; cbn [map PyDict.get fst]; [reflexivity|].
  destruct (String.eqb_spec k k') as [->|]; [reflexivity | assumption].
Qed.

Lemma keys_map_entries (f : string * json -> json) (d : dict) :
  PyDict.keys (map (fun e => (fst e, f e)) d) = PyDict.keys d.
Proof. unfold PyDict.keys. rewrite map_map. reflexivity. Qed.

Lemma get_del_other (d : dict) (k k' : string) :
  k' <> k -> PyDict.get (PyDict.del k d) k' = PyDict.get d k'.
Proof.
  intros Hne. induction d as [|[k0 v0] d IH]; cbn [PyDict.del PyDict.get]; [reflexivity|].
  destruct (String.eqb_spec k k0) as [->|].
  - destruct (String.eqb_spec k' k0); [contradiction | reflexivity].
  - cbn [PyDict.get]. now rewrite IH.
Qed.

Lemma refs_of_del (d : dict) (k r : string) :
  In r (refs_of (JObj (PyDict.del k d))) -> In r (refs_of (JObj d)).
Proof.
  induction d as [|[k0 v0] d IH]; cbn [PyDict.del]; [auto|].
  destruct (String.eqb k k0).
  - intros H. cbn [refs_of flat_map]. apply in_or_app. now right.
  - cbn [refs_of flat_map]. rewrite !in_app_iff. intros [H|H]; [now left | right; now apply IH].
Qed.

(** A reference of the document that is rewritten is one of the base
    document or one of a merged definition. *)
Lemma refs_of_before_rewrite (base merged_definitions : dict) (s : string) :
  In s (refs_of (before_rewrite base merged_definitions)) ->
  In s (refs_of (JObj base)) \/ In s (refs_of (JObj merged_definitions)).
Proof.
  unfold before_rewrite. induction base as [|[k v] base IH]; cbn [PyDict.set].
  - cbn [refs_of flat_map fst snd String.eqb Ascii.eqb Bool.eqb]. cbn.
    rewrite app_nil_r. now right.
  - destruct (String.eqb_spec "definitions" k) as [<-|Hk].
    + cbn [refs_of flat_map fst snd]. cbn [String.eqb Ascii.eqb Bool.eqb].
      rewrite !in_app_iff. intros [H|H]; [now right | left; now right].
    + cbn [refs_of flat_map fst snd]. rewrite !in_app_iff.
      intros [H|H]; [left; now left|].
      destruct (IH H) as [H'|H']; [left; now right | now right].
Qed.

Lemma has_same_keys (d d' : dict) (k : string) :
  PyDict.keys d = PyDict.keys d' -> PyDict.has d k = PyDict.has d' k.
Proof.
  intros H. destruct (PyDict.has d' k) eqn:E.
  - apply has_iff. rewrite H. now apply has_iff.
  - apply has_false_iff. rewrite H. now apply has_false_iff.
Qed.

End RefsFacts.

(** ** The combined document *)
Section CombineFacts.

Lemma wf_json_obj_intro (entries : dict) :
  NoDup (PyDict.keys entries) -> Forall (fun e => wf_json (snd e) = true) entries ->
  wf_json (JObj entries) = true.
Proof.
  intros Hnd Hv. cbn [wf_json]. apply andb_true_iff. split.
  - now apply nodupb_iff.
  - apply forallb_forall. now rewrite Forall_forall in Hv.
Qed.

Lemma before_rewrite_wf (schemas base : dict) :
  wf_json (JObj base) = true ->
  Forall (fun e => wf_json (snd e) = true) schemas ->
  wf_json (before_rewrite base (merged schemas [])) = true.
Proof.
  intros Hb Hs. apply wf_json_obj in Hb as [Hnd Hv]. unfold before_rewrite.
  apply wf_json_obj_intro; [now apply nodup_keys_set|].
  apply (set_values (fun v => wf_json v = true)); [assumption|].
  apply wf_json_obj_intro; [apply merged_nodup; constructor|].
  apply merged_wf; [assumption | constructor].
Qed.

(** On schema documents of the expected shape [combine] returns an
    object; its [definitions] are the rewritten merged definitions, and
    its references come from the document that was rewritten. *)
Lemma combine_ok (schemas base : dict) :
  PyDict.get schemas "bpmn-process" = Some (JObj base) ->
  Forall (fun e => schema_ok (snd e) = true) schemas ->
  Forall (fun e => wf_json (snd e) = true) schemas ->
  exists entries,
    Combined.combine schemas = inr (JObj entries)
    /\ PyDict.get entries "definitions"
       = Some (Combined.update_refs (JObj (merged schemas [])) "bpmn-process")
    /\ forall r, In r (refs_of (JObj entries)) ->
                 In r (map Combined.local_ref
                         (refs_of (before_rewrite base (merged schemas [])))).
Proof.
  intros Hget Hok Hwf.
  assert (Hb : wf_json (JObj base) = true).
  { apply get_in in Hget. rewrite Forall_forall in Hwf. apply (Hwf _ Hget). }
  pose proof (before_rewrite_wf _ _ Hb Hwf) as Hpre.
  pose proof (refs_of_update_refs "bpmn-process" _ Hpre) as Hrefs.
  unfold Combined.combine. exc_step. rewrite Hget. exc_step. cbn [Py.copy]. exc_step.
  rewrite (merge_definitions_ok _ _ Hok). exc_step. cbn [Py.setitem]. exc_step.
  fold (before_rewrite base (merged schemas [])).
  unfold before_rewrite in *. apply wf_json_obj in Hpre as [Hnd _].
  rewrite (update_refs_obj _ _ Hnd) in *. exc_step.
  set (f := rewritten_value "bpmn-process") in *.
  set (pre := PyDict.set "definitions" (JObj (merged schemas [])) base) in *.
  assert (Hd : PyDict.get (map (fun e => (fst e, f e)) pre) "definitions"
               = Some (Combined.update_refs (JObj (merged schemas [])) "bpmn-process")).
  { rewrite get_map_entries. unfold pre. now rewrite get_set_same. }
  destruct (PyDict.has (map (fun e => (fst e, f e)) pre) "$id") eqn:Hid.
  - cbn [Py.delitem]. rewrite Hid. eexists. split; [reflexivity|]. split.
    + rewrite get_del_other; [assumption | discriminate].
    + intros r Hr. rewrite <- Hrefs. now apply refs_of_del in Hr.
  - eexists. split; [reflexivity|]. split; [assumption|].
    intros r Hr. now rewrite <- Hrefs.
Qed.

Lemma load_schemas_six (read : string -> exc json) (s1 s2 s3 s4 s5 s6 : json) :
  read "schemas/bpmn-common.json" = inr s1 ->
  read "schemas/bpmn-flow-objects.json" = inr s2 ->
  read "schemas/bpmn-connectors.json" = inr s3 ->
  read "schemas/bpmn-artifacts.json" = inr s4 ->
  read "schemas/bpmn-agents.json" = inr s5 ->
  read "schemas/bpmn-process.json" = inr s6 ->
  Combined.load_schemas read Combined.schema_files []
  = inr [ ("bpmn-common", s1); ("bpmn-flow-objects", s2); ("bpmn-connectors", s3);
          ("bpmn-artifacts", s4); ("bpmn-agents", s5); ("bpmn-process", s6) ].
Proof.
  intros R1 R2 R3 R4 R5 R6. unfold Combined.schema_files.
  cbn [Combined.load_schemas]. rewrite R1, R2, R3, R4, R5, R6. reflexivity.
Qed.

(** The pointer to a definition of one of the six schemas is the key
    under which the definition is merged. *)
Lemma pointer_to_source (stem file name : string) :
  In stem [ "bpmn-common"; "bpmn-flow-objects"; "bpmn-connectors";
            "bpmn-artifacts"; "bpmn-agents"; "bpmn-process" ] ->
  file = stem +++ ".json" \/ file = stem ->
  pointer_to file name = "#/definitions/" +++ merged_key stem name.
Proof.
  intros Hin Hfile. cbn [In] in Hin.
  repeat (destruct Hin as [<-|Hin]; [destruct Hfile as [->| ->]; reflexivity|]).
  contradiction.
Qed.

End CombineFacts.

(** C3.  When the six schema files load as well-shaped documents, the
    combination returns a document with a [definitions] object; every
    reference of that document is the rewrite of a reference of the base
    document or of a merged definition; and every such reference of the
    external form that names a definition of a source document is
    rewritten to ["#/definitions/<key>"] with [<key>] a key of the
    combined [definitions]. *)
Theorem combine_resolves_references (read : string -> exc json) :
  (forall path, In path Combined.schema_files ->
     exists schema, read path = inr schema
                    /\ schema_ok schema = true /\ wf_json schema = true) ->
  exists schemas base combined definitions,
    Combined.load_schemas read Combined.schema_files [] = inr schemas
    /\ PyDict.get schemas "bpmn-process" = Some (JObj base)
    /\ Combined.combine schemas = inr combined
    /\ Py.getitem combined "definitions" = inr (JObj definitions)
    /\ (forall r, In r (refs_of combined) ->
          exists s, (In s (refs_of (JObj base)) \/ In s (refs_of (JObj (merged schemas []))))
                    /\ r = Combined.local_ref s)
    /\ (forall s file name,
          In s (refs_of (JObj base)) \/ In s (refs_of (JObj (merged schemas []))) ->
          external_form s file name ->
          source_defines schemas file name ->
          exists key, Combined.local_ref s = "#/definitions/" +++ key
                      /\ PyDict.has definitions key = true).
Proof.
  intros H.
  destruct (H "schemas/bpmn-common.json") as (s1 & R1 & O1 & W1); [cbn; auto 10|].
  destruct (H "schemas/bpmn-flow-objects.json") as (s2 & R2 & O2 & W2); [cbn; auto 10|].
  destruct (H "schemas/bpmn-connectors.json") as (s3 & R3 & O3 & W3); [cbn; auto 10|].
  destruct (H "schemas/bpmn-artifacts.json") as (s4 & R4 & O4 & W4); [cbn; auto 10|].
  destruct (H "schemas/bpmn-agents.json") as (s5 & R5 & O5 & W5); [cbn; auto 10|].
  destruct (H "schemas/bpmn-process.json") as (s6 & R6 & O6 & W6); [cbn; auto 10|].
  pose proof (load_schemas_six read _ _ _ _ _ _ R1 R2 R3 R4 R5 R6) as Hload.
  set (schemas := [ ("bpmn-common", s1); ("bpmn-flow-objects", s2); ("bpmn-connectors", s3);
                    ("bpmn-artifacts", s4); ("bpmn-agents", s5); ("bpmn-process", s6) ]) in *.
  assert (Hok : Forall (fun e => schema_ok (snd e) = true) schemas)
    by (repeat constructor; assumption).
  assert (Hwf : Forall (fun e => wf_json (snd e) = true) schemas)
    by (repeat constructor; assumption).
  destruct s6 as [| | | | | |base]; try discriminate.
  assert (Hget : PyDict.get schemas "bpmn-process" = Some (JObj base)) by reflexivity.
  destruct (combine_ok schemas base Hget Hok Hwf) as (entries & Hc & Hd & Hr).
  assert (Hnd : NoDup (PyDict.keys (merged schemas []))) by (apply merged_nodup; constructor).
  rewrite (update_refs_obj _ _ Hnd) in Hd.
  exists schemas, base, (JObj entries). eexists.
  split; [exact Hload|]. split; [exact Hget|]. split; [exact Hc|].
  split; [cbn [Py.getitem]; rewrite Hd; reflexivity|]. split.
  - intros r Hin. apply Hr, in_map_iff in Hin as (s & Hs & Hin).
    exists s. split; [now apply refs_of_before_rewrite | now symmetry].
  - intros s file name Hin Hx (stem & schema & Hsrc & Hfile & Hdef).
    exists (merged_key stem name). split.
    + rewrite (local_ref_external _ _ _ Hx). apply pointer_to_source; [|assumption].
      cbn [In schemas] in Hsrc |- *.
      repeat (destruct Hsrc as [[= <- _]|Hsrc]; [auto 10|]). contradiction.
    + rewrite (has_same_keys _ (merged schemas [])) by apply keys_map_entries.
      now apply merged_has with (schema := schema).
Qed.

Lemma combine_resolves_references_witness :
  exists schemas base combined definitions,
    Combined.load_schemas referring_files Combined.schema_files [] = inr schemas
    /\ PyDict.get schemas "bpmn-process" = Some (JObj base)
    /\ Combined.combine schemas = inr combined
    /\ Py.getitem combined "definitions" = inr (JObj definitions)
    /\ (forall r, In r (refs_of combined) ->
          exists s, (In s (refs_of (JObj base)) \/ In s (refs_of (JObj (merged schemas []))))
                    /\ r = Combined.local_ref s)
    /\ (forall s file name,
          In s (refs_of (JObj base)) \/ In s (refs_of (JObj (merged schemas []))) ->
          external_form s file name ->
          source_defines schemas file name ->
          exists key, Combined.local_ref s = "#/definitions/" +++ key
                      /\ PyDict.has definitions key = true).
Proof.
  apply (combine_resolves_references referring_files).
  intros path Hin. cbn [In Combined.schema_files] in Hin.
  repeat (destruct Hin as [<-|Hin]; [eexists; repeat split; reflexivity|]).
  contradiction.
Defined.

Example combine_referring_files :
  (schemas <- Combined.load_schemas referring_files Combined.schema_files [] ;;
   Combined.combine schemas)
  = inr (JObj [ ("properties",
                 JObj [("id", JObj [("$ref", JStr "#/definitions/common_Id")])]);
                ("definitions", JObj [("common_Id", string_schema)]) ]).
Proof. reflexivity. Qed.

(** ** The validator on documents of the expected shape *)

Section ValidatorFacts.

Variable repr : json -> string.

Lemma missing_obj (e : dict) (field : string) :
  Validator.missing (JObj e) field = inr (lacks e field).
Proof. reflexivity. Qed.

Lemma label_obj (e : dict) : Validator.label repr (JObj e) = inr (who repr e).
Proof. reflexivity. Qed.

Lemma declare_obj (kind : string) (errors : list string) (ids : list json) (e : dict) :
  field_hashable e "id" = true ->
  Validator.declare repr kind (errors, ids) (JObj e)
  = inr (errors ++ when (lacks e "id") (kind +++ " missing 'id': " +++ repr (JObj e)),
         ids ++ declared_ids [JObj e]).
Proof.
  unfold Validator.declare, field_hashable, lacks, declared_ids. intros H.
  rewrite missing_obj, bind_inr. unfold lacks. rewrite has_get.
  cbn [flat_map Py.getitem]. destruct (PyDict.get e "id") as [i|]; cbn.
  - unfold Validator.set_add. rewrite H. cbn. now rewrite !app_nil_r.
  - now rewrite !app_nil_r.
Qed.

Lemma require_obj (kind field : string) (errors : list string) (e : dict) :
  Validator.require repr kind field errors (JObj e)
  = inr (errors ++ when (lacks e field)
                     (kind +++ " " +++ who repr e +++ " missing '" +++ field +++ "'")).
Proof.
  unfold Validator.require. rewrite missing_obj, bind_inr.
  destruct (lacks e field); cbn; [reflexivity | now rewrite app_nil_r].
Qed.

Lemma check_event_obj (errors : list string) (ids : list json) (x : json) :
  element_ok x = true ->
  Validator.check_event repr (errors, ids) x
  = inr (errors ++ event_errors repr x, ids ++ declared_ids [x]).
Proof.
  destruct x as [| | | | | |e]; try discriminate. cbn [element_ok]. intros H.
  unfold Validator.check_event. rewrite (declare_obj _ _ _ _ H), bind_inr.
  rewrite require_obj, bind_inr. exc_step.
  cbn [event_errors]. rewrite !app_assoc.
  destruct (PyDict.get e "type") as [type|]; cbn [andb].
  - destruct (Py.eq_str type "boundaryEvent").
    + rewrite require_obj. reflexivity.
    + cbn [andb when]. rewrite app_nil_r. reflexivity.
  - cbn [Py.eq_str andb when]. rewrite app_nil_r. reflexivity.
Qed.

Lemma check_gateway_obj (errors : list string) (ids : list json) (x : json) :
  element_ok x = true ->
  Validator.check_gateway repr (errors, ids) x
  = inr (errors ++ gateway_errors repr x, ids ++ declared_ids [x]).
Proof.
  destruct x as [| | | | | |e]; try discriminate. cbn [element_ok]. intros H.
  unfold Validator.check_gateway. rewrite (declare_obj _ _ _ _ H), bind_inr.
  rewrite require_obj, bind_inr. cbn [gateway_errors]. now rewrite !app_assoc.
Qed.

Lemma check_activity_obj (errors : list string) (ids : list json) (x : json) :
  activity_ok x = true ->
  Validator.check_activity repr (errors, ids) x
  = inr (errors ++ activity_errors repr x, ids ++ declared_ids [x]).
Proof.
  destruct x as [| | | | | |e]; try discriminate. cbn [activity_ok].
  intros H. apply andb_true_iff in H as [H Hagent].
  unfold Validator.check_activity. rewrite (declare_obj _ _ _ _ H), bind_inr.
  rewrite require_obj, bind_inr, require_obj, bind_inr. exc_step.
  cbn [activity_errors]. rewrite has_get, !app_assoc.
  destruct (PyDict.get e "agent") as [agent|] eqn:Ha;
    [| rewrite app_nil_r; reflexivity].
  exc_step.
  rewrite label_obj. unfold Validator.missing, agent_lacks.
  destruct agent; try discriminate; exc_step;
    repeat (match goal with
            | |- context [negb ?b] => destruct b
            end; cbn [negb when app]);
    rewrite ?app_nil_r, <- ?app_assoc; reflexivity.
Qed.

Lemma check_ref_obj (ids : list json) (field : string) (errors : list string) (e : dict) :
  field_hashable e field = true ->
  Validator.check_ref repr ids field errors (JObj e)
  = inr (errors ++ ref_errors repr ids e field).
Proof.
  unfold Validator.check_ref, field_hashable, ref_errors. intros H.
  rewrite missing_obj, bind_inr, label_obj. unfold lacks. rewrite has_get. exc_step.
  destruct (PyDict.get e field) as [ref|]; cbn [negb]; [|reflexivity].
  unfold Validator.set_mem. rewrite H. exc_step.
  destruct (existsb (Validator.key_eqb ref) ids); cbn [negb when];
    [now rewrite app_nil_r | reflexivity].
Qed.

Lemma check_flow_obj (ids : list json) (errors : list string) (x : json) :
  flow_ok x = true ->
  Validator.check_flow repr ids errors x = inr (errors ++ flow_errors repr ids x).
Proof.
  destruct x as [| | | | | |e]; try discriminate. cbn [flow_ok].
  intros H. apply andb_true_iff in H as [Hs Ht].
  unfold Validator.check_flow. rewrite missing_obj, bind_inr.
  rewrite (check_ref_obj _ _ _ _ Hs), bind_inr, (check_ref_obj _ _ _ _ Ht).
  cbn [flow_errors]. rewrite !app_assoc.
  destruct (lacks e "id"); cbn [when]; [reflexivity | now rewrite app_nil_r].
Qed.

(** A loop over well-shaped elements appends the errors of each and
    declares the ids of each. *)
Lemma for_each_elements (body : Validator.state -> json -> exc Validator.state)
      (ok : json -> bool) (errs : json -> list string) (items : list json) :
  (forall errors ids x, ok x = true ->
     body (errors, ids) x = inr (errors ++ errs x, ids ++ declared_ids [x])) ->
  forallb ok items = true ->
  forall errors ids,
    Validator.for_each body items (errors, ids)
    = inr (errors ++ flat_map errs items, ids ++ declared_ids items).
Proof.
  intros Hbody. induction items as [|x items IH]; intros Hok errors ids.
  - cbn. now rewrite !app_nil_r.
  - cbn [forallb] in Hok. apply andb_true_iff in Hok as [Hx Hok].
    cbn [Validator.for_each]. rewrite (Hbody _ _ _ Hx), bind_inr, (IH Hok).
    assert (Hd : declared_ids (x :: items) = declared_ids [x] ++ declared_ids items)
      by (unfold declared_ids; cbn [flat_map]; now rewrite app_nil_r).
    rewrite Hd. cbn [flat_map]. now rewrite !app_assoc.
Qed.

Lemma for_each_flows (ids : list json) (items : list json) :
  forallb flow_ok items = true ->
  forall errors,
    Validator.for_each (Validator.check_flow repr ids) items errors
    = inr (errors ++ flat_map (flow_errors repr ids) items).
Proof.
  induction items as [|x items IH]; intros Hok errors.
  - cbn. now rewrite app_nil_r.
  - cbn [forallb] in Hok. apply andb_true_iff in Hok as [Hx Hok].
    cbn [Validator.for_each]. rewrite (check_flow_obj _ _ _ Hx), bind_inr, (IH Hok).
    cbn [flat_map]. now rewrite !app_assoc.
Qed.

Lemma each_of_elements (body : Validator.state -> json -> exc Validator.state)
      (ok : json -> bool) (errs : json -> list string) (elements : dict) (key : string) :
  (forall errors ids x, ok x = true ->
     body (errors, ids) x = inr (errors ++ errs x, ids ++ declared_ids [x])) ->
  section_ok ok elements key = true ->
  forall errors ids,
    Validator.each_of (JObj elements) key body (errors, ids)
    = inr (errors ++ flat_map errs (items_of elements key),
           ids ++ declared_ids (items_of elements key)).
Proof.
  intros Hbody Hok errors ids. unfold Validator.each_of, section_ok, items_of in *.
  exc_step. rewrite has_get.
  destruct (PyDict.get elements key) as [[| | | | |items|]|]; try discriminate.
  - exc_step. now apply for_each_elements with (ok := ok).
  - cbn. now rewrite !app_nil_r.
Qed.

Lemma each_of_flows (ids : list json) (elements : dict) :
  section_ok flow_ok elements "sequenceFlows" = true ->
  forall errors,
    Validator.each_of (JObj elements) "sequenceFlows" (Validator.check_flow repr ids) errors
    = inr (errors ++ flat_map (flow_errors repr ids) (items_of elements "sequenceFlows")).
Proof.
  intros Hok errors. unfold Validator.each_of, section_ok, items_of in *.
  exc_step. rewrite has_get.
  destruct (PyDict.get elements "sequenceFlows") as [[| | | | |items|]|]; try discriminate.
  - exc_step. now apply for_each_flows.
  - cbn. now rewrite app_nil_r.
Qed.

(** The checks of [elements], in closed form. *)
Lemma check_elements_ok (elements : dict) (errors : list string) :
  elements_ok elements = true ->
  Validator.check_elements repr (JObj elements) errors
  = inr (errors ++ element_errors repr elements ++ sequence_flow_errors repr elements).
Proof.
  unfold elements_ok. rewrite !andb_true_iff. intros [[[He Ha] Hg] Hf].
  unfold Validator.check_elements.
  rewrite (each_of_elements _ _ _ _ _ (check_event_obj) He), bind_inr.
  rewrite (each_of_elements _ _ _ _ _ (check_activity_obj) Ha), bind_inr.
  rewrite (each_of_elements _ _ _ _ _ (check_gateway_obj) Hg), bind_inr.
  rewrite (each_of_flows _ _ Hf).
  unfold element_errors, sequence_flow_errors, all_declared.
  cbn [app]. now rewrite !app_assoc.
Qed.

End ValidatorFacts.

(** ** The validator on whole documents *)
Section CheckFacts.

Variable repr : json -> string.

Lemma check_without_process (d : dict) :
  PyDict.has d "process" = false ->
  Validator.check repr (JObj d) = inr ["Missing 'process' root element"].
Proof.
  intros H. unfold Validator.check. rewrite missing_obj, bind_inr.
  unfold lacks. now rewrite H.
Qed.

Lemma check_with_process (d p : dict) :
  PyDict.get d "process" = Some (JObj p) ->
  Validator.check repr (JObj d)
  = match PyDict.get p "elements" with
    | Some elements =>
        Validator.check_elements repr elements
          (when (lacks p "id") process_id_missing
           ++ when (lacks p "name") process_name_missing)
    | None =>
        inr (when (lacks p "id") process_id_missing
             ++ when (lacks p "name") process_name_missing
             ++ [process_elements_missing])
    end.
Proof.
  intros H. unfold Validator.check. rewrite missing_obj, bind_inr.
  unfold lacks at 1. rewrite has_get, H. cbn [negb]. exc_step. rewrite H. exc_step.
  rewrite !missing_obj. exc_step.
  assert (Hl : lacks p "elements"
               = match PyDict.get p "elements" with Some _ => false | None => true end)
    by (unfold lacks; rewrite has_get; now destruct (PyDict.get p "elements")).
  rewrite Hl. clear Hl.
  destruct (PyDict.get p "elements") as [elements|];
    destruct (lacks p "id"), (lacks p "name"); reflexivity.
Qed.

(** On a document of the expected shape [check] returns, and what it
    returns is known. *)
Lemma check_ok (d p : dict) :
  PyDict.get d "process" = Some (JObj p) ->
  process_ok p = true ->
  Validator.check repr (JObj d)
  = inr (when (lacks p "id") process_id_missing
         ++ when (lacks p "name") process_name_missing
         ++ when (lacks p "elements") process_elements_missing
         ++ errors_below repr p).
Proof.
  intros H Hok. rewrite (check_with_process _ _ H).
  unfold process_ok, errors_below, lacks in *. rewrite (has_get p "elements").
  destruct (PyDict.get p "elements") as [[| | | | | |elements]|]; try discriminate.
  - rewrite (check_elements_ok _ _ _ Hok). cbn [negb when app].
    now rewrite <- !app_assoc.
  - cbn [negb when]. now rewrite app_nil_r.
Qed.

End CheckFacts.

(** ** Messages and the order of declarations *)
Section MessageFacts.

Variable repr : json -> string.

Lemma Forall_when (P : string -> Prop) (condition : bool) (m : string) :
  P m -> Forall P (when condition m).
Proof. intros H. destruct condition; cbn [when]; auto. Qed.

Ltac below :=
  repeat first
    [ apply Forall_app; split
    | apply Forall_when; reflexivity
    | apply Forall_nil
    | apply Forall_cons; [reflexivity|] ].

Lemma event_errors_below (x : json) : Forall below_process (event_errors repr x).
Proof. destruct x; cbn [event_errors]; below. Qed.

Lemma activity_errors_below (x : json) : Forall below_process (activity_errors repr x).
Proof.
  destruct x as [| | | | | |e]; cbn [activity_errors]; below.
  destruct (PyDict.get e "agent"); below.
Qed.

Lemma gateway_errors_below (x : json) : Forall below_process (gateway_errors repr x).
Proof. destruct x; cbn [gateway_errors]; below. Qed.

Lemma flow_errors_below (ids : list json) (x : json) :
  Forall below_process (flow_errors repr ids x).
Proof.
  destruct x as [| | | | | |e]; cbn [flow_errors]; below;
    unfold ref_errors; match goal with |- context [PyDict.get e ?f] =>
                                         destruct (PyDict.get e f) end; below.
Qed.

Lemma Forall_flat_map_all {A : Type} (P : string -> Prop) (f : A -> list string) (l : list A) :
  (forall x, Forall P (f x)) -> Forall P (flat_map f l).
Proof.
  intros H. induction l as [|x l IH]; cbn [flat_map]; [constructor|].
  apply Forall_app. auto.
Qed.

Lemma errors_below_process (p : dict) : Forall below_process (errors_below repr p).
Proof.
  unfold errors_below.
  destruct (PyDict.get p "elements") as [[| | | | | |elements]|]; try constructor.
  unfold element_errors, sequence_flow_errors.
  repeat (apply Forall_app; split); apply Forall_flat_map_all;
    auto using event_errors_below, activity_errors_below, gateway_errors_below,
      flow_errors_below.
Qed.

Lemma existsb_permutation {A : Type} (f : A -> bool) (l l' : list A) :
  Permutation l l' -> existsb f l = existsb f l'.
Proof.
  induction 1 as [|x l l' _ IH|x y l|l l' l'' _ IH1 _ IH2]; cbn [existsb].
  - reflexivity.
  - now rewrite IH.
  - now rewrite !orb_assoc, (orb_comm (f y)).
  - congruence.
Qed.

(** The errors of a flow depend on the set of ids only through what
    is in it. *)
Lemma flow_errors_same_members (ids ids' : list json) (x : json) :
  (forall v, existsb (Validator.key_eqb v) ids = existsb (Validator.key_eqb v) ids') ->
  flow_errors repr ids x = flow_errors repr ids' x.
Proof.
  intros H. destruct x as [| | | | | |e]; try reflexivity.
  cbn [flow_errors]. unfold ref_errors.
  destruct (PyDict.get e "sourceRef"), (PyDict.get e "targetRef"); now rewrite ?H.
Qed.

Lemma all_declared_permutation (elements elements' : dict) :
  Permutation (items_of elements "events") (items_of elements' "events") ->
  Permutation (items_of elements "activities") (items_of elements' "activities") ->
  Permutation (items_of elements "gateways") (items_of elements' "gateways") ->
  Permutation (all_declared elements) (all_declared elements').
Proof.
  intros He Ha Hg. unfold all_declared, declared_ids.
  repeat apply Permutation_app; now apply Permutation_flat_map.
Qed.

Lemma element_errors_permutation (elements elements' : dict) :
  Permutation (items_of elements "events") (items_of elements' "events") ->
  Permutation (items_of elements "activities") (items_of elements' "activities") ->
  Permutation (items_of elements "gateways") (items_of elements' "gateways") ->
  Permutation (element_errors repr elements) (element_errors repr elements').
Proof.
  intros He Ha Hg. unfold element_errors.
  repeat apply Permutation_app; now apply Permutation_flat_map.
Qed.

Lemma sequence_flow_errors_permutation (elements elements' : dict) :
  Permutation (all_declared elements) (all_declared elements') ->
  items_of elements "sequenceFlows" = items_of elements' "sequenceFlows" ->
  sequence_flow_errors repr elements = sequence_flow_errors repr elements'.
Proof.
  intros Hp Hf. unfold sequence_flow_errors. rewrite <- Hf.
  apply flat_map_ext. intros x. apply flow_errors_same_members.
  intros v. now apply existsb_permutation.
Qed.

End MessageFacts.

(** ** The claims about the structural validator *)

(** C6.  On the minimal valid document, whatever its process id and name
    are, [check] returns the empty list of errors. *)
Theorem check_minimal_document (repr : json -> string) (id name : json) (path : string) :
  Validator.check_bpmn_file repr (fun _ => inr (minimal_document id name "a1")) path
  = inr [].
Proof. reflexivity. Qed.

(** C7.  With the target of the flow changed to the undeclared ["a2"],
    [check] returns the one error that cites it.  On well-shaped elements
    the flows are checked last, against the ids declared by all events,
    activities and gateways; permuting the members of these arrays leaves
    the errors of the flows as they are and permutes the others. *)
Theorem check_undeclared_target (repr : json -> string) :
  (forall id name path,
      Validator.check_bpmn_file repr (fun _ => inr (minimal_document id name "a2")) path
      = inr ["Sequence flow f1 has invalid targetRef: a2"])
  /\ (forall elements errors,
         elements_ok elements = true ->
         Validator.check_elements repr (JObj elements) errors
         = inr (errors ++ element_errors repr elements
                  ++ flat_map (flow_errors repr (all_declared elements))
                       (items_of elements "sequenceFlows")))
  /\ (forall elements elements' errors,
         elements_ok elements = true -> elements_ok elements' = true ->
         Permutation (items_of elements "events") (items_of elements' "events") ->
         Permutation (items_of elements "activities") (items_of elements' "activities") ->
         Permutation (items_of elements "gateways") (items_of elements' "gateways") ->
         items_of elements "sequenceFlows" = items_of elements' "sequenceFlows" ->
         exists others others' flows,
           Validator.check_elements repr (JObj elements) errors
           = inr (errors ++ others ++ flows)
           /\ Validator.check_elements repr (JObj elements') errors
              = inr (errors ++ others' ++ flows)
           /\ Permutation others others').
Proof.
  split; [reflexivity|]. split.
  - intros elements errors Hok. now rewrite (check_elements_ok repr _ _ Hok).
  - intros elements elements' errors Hok Hok' He Ha Hg Hf.
    exists (element_errors repr elements), (element_errors repr elements'),
      (sequence_flow_errors repr elements).
    rewrite (check_elements_ok repr _ _ Hok), (check_elements_ok repr _ _ Hok').
    rewrite (sequence_flow_errors_permutation repr elements elements');
      auto using all_declared_permutation, element_errors_permutation.
Qed.

(** C8.  A document without ["process"] gets the one error about the
    missing root and nothing else is checked.  When the process object
    is there, the checks for its id, its name and its elements each add
    their own error, whatever the other two find, and no other error
    reads like one of them. *)
Theorem check_process_presence (repr : json -> string) :
  (forall d, PyDict.has d "process" = false ->
             Validator.check repr (JObj d) = inr ["Missing 'process' root element"])
  /\ (forall d p,
         PyDict.get d "process" = Some (JObj p) ->
         process_ok p = true ->
         exists rest,
           Validator.check repr (JObj d)
           = inr (when (lacks p "id") process_id_missing
                  ++ when (lacks p "name") process_name_missing
                  ++ when (lacks p "elements") process_elements_missing
                  ++ rest)
           /\ ~ In process_id_missing rest
           /\ ~ In process_name_missing rest
           /\ ~ In process_elements_missing rest).
Proof.
  split; [apply check_without_process|].
  intros d p H Hok. exists (errors_below repr p).
  split; [now apply check_ok|].
  pose proof (errors_below_process repr p) as Hb. rewrite Forall_forall in Hb.
  repeat split; intros Hin; apply Hb in Hin; discriminate.
Qed.

(** C9.  In a well-shaped document every activity without a ["name"] is
    reported, cited by its id, or by ["?"] when it has none.  Events and
    gateways have no such check: one with an id and a type, and which is
    not a boundary event, adds no error whether or not it has a name. *)
Theorem check_activity_name (repr : json -> string) :
  (forall d p elements a,
      PyDict.get d "process" = Some (JObj p) ->
      PyDict.get p "elements" = Some (JObj elements) ->
      elements_ok elements = true ->
      In (JObj a) (items_of elements "activities") ->
      PyDict.has a "name" = false ->
      exists errors,
        Validator.check repr (JObj d) = inr errors
        /\ In ("Activity "
                 +++ Validator.str repr
                       (match PyDict.get a "id" with Some i => i | None => JStr "?" end)
                 +++ " missing 'name'") errors)
  /\ (forall e i type errors ids,
         PyDict.get e "id" = Some i -> Validator.hashable i = true ->
         PyDict.get e "type" = Some type -> Py.eq_str type "boundaryEvent" = false ->
         Validator.check_event repr (errors, ids) (JObj e) = inr (errors, ids ++ [i])
         /\ Validator.check_gateway repr (errors, ids) (JObj e) = inr (errors, ids ++ [i])).
Proof.
  split.
  - intros d p elements a Hp He Hok Ha Hname.
    eexists. split.
    + apply check_ok; [eassumption|]. unfold process_ok. now rewrite He.
    + rewrite !in_app_iff. do 3 right.
      unfold errors_below. rewrite He, in_app_iff. left.
      unfold element_errors. rewrite !in_app_iff. right. left.
      apply in_flat_map. exists (JObj a). split; [assumption|].
      cbn [activity_errors]. rewrite !in_app_iff. right. left.
      unfold lacks. rewrite Hname. now left.
  - intros e i type errors ids Hi Hh Ht Hb.
    assert (Hok : element_ok (JObj e) = true)
      by (cbn [element_ok]; unfold field_hashable; now rewrite Hi).
    rewrite (check_event_obj repr _ _ _ Hok), (check_gateway_obj repr _ _ _ Hok).
    cbn [event_errors gateway_errors declared_ids flat_map]. unfold lacks.
    rewrite !has_get, Hi, Ht, Hb. cbn [negb andb when app]. now rewrite !app_nil_r.
Qed.

(** C10.  When the process object has no ["elements"], [check] reports
    that once, after what the checks of the id and of the name found,
    and reports nothing about any element or flow. *)
Theorem check_without_elements (repr : json -> string) (d p : dict) :
  PyDict.get d "process" = Some (JObj p) ->
  PyDict.has p "elements" = false ->
  Validator.check repr (JObj d)
  = inr (when (lacks p "id") process_id_missing
         ++ when (lacks p "name") process_name_missing
         ++ [process_elements_missing]).
Proof.
  intros H He. rewrite (check_with_process repr _ _ H).
  rewrite has_get in He. now destruct (PyDict.get p "elements").
Qed.

(** ** The hypotheses of the theorems hold on sample documents *)

Lemma check_undeclared_target_witness :
  elements_ok (minimal_elements "a2") = true
  /\ Validator.check_elements no_repr (JObj (minimal_elements "a2")) []
     = inr ([] ++ element_errors no_repr (minimal_elements "a2")
               ++ flat_map (flow_errors no_repr (all_declared (minimal_elements "a2")))
                    (items_of (minimal_elements "a2") "sequenceFlows")).
Proof.
  split; [reflexivity|].
  apply (proj1 (proj2 (check_undeclared_target no_repr))). reflexivity.
Defined.

Lemma check_process_presence_witness :
  exists rest,
    Validator.check no_repr (JObj [("process", JObj [("name", JStr "Process")])])
    = inr (when (lacks [("name", JStr "Process")] "id") process_id_missing
           ++ when (lacks [("name", JStr "Process")] "name") process_name_missing
           ++ when (lacks [("name", JStr "Process")] "elements") process_elements_missing
           ++ rest)
    /\ ~ In process_id_missing rest
    /\ ~ In process_name_missing rest
    /\ ~ In process_elements_missing rest.
Proof.
  apply (proj2 (check_process_presence no_repr)
           [("process", JObj [("name", JStr "Process")])] [("name", JStr "Process")]);
    reflexivity.
Defined.

Lemma check_activity_name_witness :
  exists errors,
    Validator.check no_repr
      (JObj [("process",
              JObj [("id", JStr "p"); ("name", JStr "P");
                    ("elements", JObj [("activities", JArr [JObj [("type", JStr "task")]])])])])
    = inr errors
    /\ In ("Activity " +++ Validator.str no_repr (JStr "?") +++ " missing 'name'") errors.
Proof.
  apply (proj1 (check_activity_name no_repr)
           [("process",
             JObj [("id", JStr "p"); ("name", JStr "P");
                   ("elements", JObj [("activities", JArr [JObj [("type", JStr "task")]])])])]
           [("id", JStr "p"); ("name", JStr "P");
            ("elements", JObj [("activities", JArr [JObj [("type", JStr "task")]])])]
           [("activities", JArr [JObj [("type", JStr "task")]])]
           [("type", JStr "task")]);
    try reflexivity.
  cbn. now left.
Defined.

Lemma check_without_elements_witness :
  Validator.check no_repr (JObj [("process", JObj [("id", JStr "p")])])
  = inr (when (lacks [("id", JStr "p")] "id") process_id_missing
         ++ when (lacks [("id", JStr "p")] "name") process_name_missing
         ++ [process_elements_missing]).
Proof.
  apply (check_without_elements no_repr [("process", JObj [("id", JStr "p")])]
           [("id", JStr "p")]); reflexivity.
Defined.


(** * Further properties of the combiner *)

(** ** The rewrite applied twice, and what it leaves behind *)
Section RewriteAgain.

Lemma pointer_to_not_external (file name a b : string) :
  ~ external_form (pointer_to file name) a b.
Proof.
  intros (E & Hs & _). unfold PyStr.startswith in Hs.
  apply (prefix_app_mono _ _ (marker +++ b)) in Hs. rewrite <- E in Hs.
  unfold pointer_to in Hs. now destruct (String.eqb _ "bpmn-process").
Qed.

Lemma local_ref_not_external (value a b : string) :
  ~ external_form (Combined.local_ref value) a b.
Proof.
  destruct (local_ref_rewritten value) as [v f n Hx | v Hn].
  - apply pointer_to_not_external.
  - apply Hn.
Qed.

Lemma local_ref_idempotent (value : string) :
  Combined.local_ref (Combined.local_ref value) = Combined.local_ref value.
Proof. apply local_ref_other. intros a b. apply local_ref_not_external. Qed.

Lemma update_refs_wf (schema_name : string) (v : json) :
  wf_json v = true -> wf_json (Combined.update_refs v schema_name) = true.
Proof.
  induction v as [| | | | |items IH|entries IH] using json_ind; intros Hwf; try reflexivity.
  - apply wf_json_arr in Hwf. cbn [Combined.update_refs wf_json].
    apply forallb_forall. intros x Hx. apply in_map_iff in Hx as (y & <- & Hy).
    rewrite Forall_forall in IH, Hwf. auto.
  - apply wf_json_obj in Hwf as [Hnd Hwf]. rewrite (update_refs_obj _ _ Hnd).
    apply wf_json_obj_intro; [now rewrite keys_map_entries|].
    rewrite Forall_forall in *. intros e He. apply in_map_iff in He as ([k x] & <- & Hx).
    cbn [snd]. unfold rewritten_value. cbn [fst snd].
    specialize (IH _ Hx (Hwf _ Hx)). cbn [snd] in IH.
    destruct (String.eqb k "$ref"); [destruct x|]; auto.
Qed.

End RewriteAgain.

(** X1.  Rewriting a parsed document a second time changes nothing: the
    rewrite is idempotent, whatever schema name is passed along. *)
Theorem update_refs_idempotent (schema_name schema_name' : string) (v : json) :
  wf_json v = true ->
  Combined.update_refs (Combined.update_refs v schema_name) schema_name'
  = Combined.update_refs v schema_name.
Proof.
  induction v as [| | | | |items IH|entries IH] using json_ind; intros Hwf; try reflexivity.
  - apply wf_json_arr in Hwf. cbn [Combined.update_refs]. f_equal.
    rewrite map_map. apply map_ext_in. intros x Hx.
    rewrite Forall_forall in IH, Hwf. auto.
  - apply wf_json_obj in Hwf as [Hnd Hwf]. rewrite (update_refs_obj _ _ Hnd).
    rewrite update_refs_obj by now rewrite keys_map_entries.
    f_equal. rewrite map_map. apply map_ext_in. intros [k x] Hx. cbn [fst]. f_equal.
    rewrite Forall_forall in IH, Hwf. specialize (IH _ Hx (Hwf _ Hx)). cbn [snd] in IH.
    unfold rewritten_value. cbn [fst snd].
    destruct (String.eqb k "$ref"); [|assumption].
    destruct x; try assumption. now rewrite local_ref_idempotent.
Qed.

Lemma update_refs_idempotent_witness :
  Combined.update_refs
    (Combined.update_refs
       (JObj [("$ref", JStr "bpmn-common.json#/definitions/Id")]) "bpmn-process")
    "bpmn-common"
  = Combined.update_refs
      (JObj [("$ref", JStr "bpmn-common.json#/definitions/Id")]) "bpmn-process".
Proof. apply update_refs_idempotent. reflexivity. Defined.

(** X2.  After the rewrite no reference of the external form is left in
    a parsed document: each reference of the result is the rewrite of the
    reference at the same place, and none reads
    [<file>#/definitions/<name>] with a file part starting with
    ["bpmn-"] and the marker occurring once. *)
Theorem update_refs_leaves_no_external (schema_name : string) (v : json) :
  wf_json v = true ->
  refs_of (Combined.update_refs v schema_name) = map Combined.local_ref (refs_of v)
  /\ forall r file name,
       In r (refs_of (Combined.update_refs v schema_name)) -> ~ external_form r file name.
Proof.
  intros Hwf. pose proof (refs_of_update_refs schema_name v Hwf) as H.
  split; [assumption|]. intros r file name Hin. rewrite H in Hin.
  apply in_map_iff in Hin as (s & <- & _). apply local_ref_not_external.
Qed.

Lemma update_refs_leaves_no_external_witness :
  refs_of (Combined.update_refs
             (JArr [JObj [("$ref", JStr "bpmn-agents.json#/definitions/Agent")]]) "bpmn-process")
  = map Combined.local_ref
        (refs_of (JArr [JObj [("$ref", JStr "bpmn-agents.json#/definitions/Agent")]]))
  /\ forall r file name,
       In r (refs_of (Combined.update_refs
                        (JArr [JObj [("$ref", JStr "bpmn-agents.json#/definitions/Agent")]])
                        "bpmn-process")) ->
       ~ external_form r file name.
Proof. apply update_refs_leaves_no_external. reflexivity. Defined.

(** X3.  A parsed document none of whose references is of the external
    form comes back from the rewrite as it was. *)
Theorem update_refs_without_external (schema_name : string) (v : json) :
  wf_json v = true ->
  (forall s file name, In s (refs_of v) -> ~ external_form s file name) ->
  Combined.update_refs v schema_name = v.
Proof.
  induction v as [| | | | |items IH|entries IH] using json_ind; intros Hwf Hno; try reflexivity.
  - apply wf_json_arr in Hwf. cbn [Combined.update_refs]. f_equal.
    rewrite <- (map_id items) at 2. apply map_ext_in. intros x Hx.
    rewrite Forall_forall in IH, Hwf. apply IH; auto.
    intros s file name Hs. apply Hno. cbn [refs_of]. apply in_flat_map. now exists x.
  - apply wf_json_obj in Hwf as [Hnd Hwf]. rewrite (update_refs_obj _ _ Hnd). f_equal.
    rewrite <- (map_id entries) at 2. apply map_ext_in. intros [k x] Hx. cbn [fst]. f_equal.
    rewrite Forall_forall in IH, Hwf. specialize (IH _ Hx (Hwf _ Hx)). cbn [snd] in IH.
    assert (Hin : forall s, In s (refs_of (JObj [(k, x)])) -> In s (refs_of (JObj entries))).
    { intros s Hs. cbn [refs_of flat_map] in Hs. rewrite app_nil_r in Hs.
      cbn [refs_of]. apply in_flat_map. now exists (k, x). }
    unfold rewritten_value. cbn [fst snd]. cbn [refs_of flat_map fst snd] in Hin.
    destruct (String.eqb k "$ref").
    + destruct x; try (apply IH; intros s file name Hs; apply Hno, Hin;
                       rewrite app_nil_r; exact Hs).
      f_equal. apply local_ref_other. intros file name. apply Hno, Hin. now left.
    + apply IH. intros s file name Hs. apply Hno, Hin. rewrite app_nil_r. exact Hs.
Qed.

Lemma update_refs_without_external_witness :
  Combined.update_refs (JObj [("$ref", JStr "#/definitions/Local")]) "bpmn-process"
  = JObj [("$ref", JStr "#/definitions/Local")].
Proof.
  apply update_refs_without_external; [reflexivity|].
  intros s file name [<-|[]] (E & Hs & _).
  unfold PyStr.startswith in Hs. apply (prefix_app_mono _ _ (marker +++ name)) in Hs.
  rewrite <- E in Hs. discriminate.
Defined.

(** ** The merged map, key by key *)
Section MergeLookup.

Lemma get_app (d d' : dict) (k : string) :
  PyDict.get (d ++ d') k
  = match PyDict.get d k with Some v => Some v | None => PyDict.get d' k end.
Proof.
  induction d as [|[k' v'] d IH]; cbn [app PyDict.get]; [reflexivity|].
  now destruct (String.eqb k k').
Qed.

(** After a run of assignments a key holds what was assigned to it last. *)
Lemma get_fold_set (entries acc : dict) (k : string) :
  PyDict.get (fold_left (fun a e => PyDict.set (fst e) (snd e) a) entries acc) k
  = match PyDict.get (rev entries) k with Some v => Some v | None => PyDict.get acc k end.
Proof.
  revert acc. induction entries as [|[k' v'] entries IH]; intros acc; cbn [fold_left rev fst snd].
  - reflexivity.
  - rewrite IH, get_app. destruct (PyDict.get (rev entries) k); [reflexivity|].
    cbn [PyDict.get]. destruct (String.eqb_spec k k') as [->|Hne].
    + apply get_set_same.
    + now apply get_set_other.
Qed.

Lemma add_definitions_get (name : string) (schema : json) (acc : dict) (k : string) :
  PyDict.get (Combined.add_definitions name (definitions_of schema) acc) k
  = match PyDict.get (rev (renamed name schema)) k with
    | Some v => Some v
    | None => PyDict.get acc k
    end.
Proof.
  rewrite add_definitions_step. rewrite <- get_fold_set. unfold renamed.
  generalize (definitions_of schema). intros l. revert acc.
  induction l as [|e l IH]; intros acc; cbn [fold_left map fst snd]; auto.
Qed.

Lemma merged_get (schemas acc : dict) (k : string) :
  PyDict.get (merged schemas acc) k
  = match PyDict.get (rev (renamed_entries schemas)) k with
    | Some v => Some v
    | None => PyDict.get acc k
    end.
Proof.
  revert acc. induction schemas as [|[name schema] schemas IH]; intros acc.
  - reflexivity.
  - cbn [merged fold_left renamed_entries flat_map fst snd].
    fold (merged schemas (Combined.add_definitions name (definitions_of schema) acc)).
    fold (renamed_entries schemas).
    rewrite IH, rev_app_distr, get_app, add_definitions_get.
    now destruct (PyDict.get (rev (renamed_entries schemas)) k).
Qed.

End MergeLookup.

(** X4.  On schema documents of the expected shape the merge returns a
    map with pairwise distinct keys in which every key holds the
    definition of the last source entry merged under it, in the order of
    the documents and of their definitions; a key no entry is merged
    under is not in the map. *)
Theorem merge_definitions_last_wins (schemas : dict) :
  Forall (fun e => schema_ok (snd e) = true) schemas ->
  exists all_definitions,
    Combined.merge_definitions schemas [] = inr all_definitions
    /\ NoDup (PyDict.keys all_definitions)
    /\ forall k, PyDict.get all_definitions k
                 = PyDict.get (rev (renamed_entries schemas)) k.
Proof.
  intros Hok. exists (merged schemas []).
  split; [now apply merge_definitions_ok|].
  split; [apply merged_nodup; constructor|].
  intros k. rewrite merged_get. now destruct (PyDict.get (rev (renamed_entries schemas)) k).
Qed.

Lemma merge_definitions_last_wins_witness :
  exists all_definitions,
    Combined.merge_definitions
      [ ("bpmn-common", JObj [("definitions", JObj [("X", string_schema)])]);
        ("bpmn-process", JObj [("definitions", JObj [("common_X", number_schema)])]) ] []
    = inr all_definitions
    /\ NoDup (PyDict.keys all_definitions)
    /\ forall k, PyDict.get all_definitions k
                 = PyDict.get
                     (rev (renamed_entries
                             [ ("bpmn-common",
                                JObj [("definitions", JObj [("X", string_schema)])]);
                               ("bpmn-process",
                                JObj [("definitions", JObj [("common_X", number_schema)])]) ]))
                     k.
Proof. apply merge_definitions_last_wins. repeat constructor. Defined.

(** X5.  On schema documents of the expected shape, when no two
    definitions are merged under the same key, the merged map is exactly
    the list of the definitions of each document under their keys, in the
    order of the documents and of their definitions. *)
Theorem merge_definitions_exact (schemas : dict) :
  Forall (fun e => schema_ok (snd e) = true) schemas ->
  NoDup (PyDict.keys (renamed_entries schemas)) ->
  Combined.merge_definitions schemas [] = inr (renamed_entries schemas).
Proof.
  intros Hok Hnd. rewrite (merge_definitions_ok _ _ Hok).
  now rewrite (merged_exact schemas []).
Qed.

Lemma merge_definitions_exact_witness :
  Combined.merge_definitions
    [ ("bpmn-common", JObj [("definitions", JObj [("Id", string_schema)])]);
      ("bpmn-process", JObj [("definitions", JObj [("Process", number_schema)])]) ] []
  = inr (renamed_entries
           [ ("bpmn-common", JObj [("definitions", JObj [("Id", string_schema)])]);
             ("bpmn-process", JObj [("definitions", JObj [("Process", number_schema)])]) ]).
Proof.
  apply merge_definitions_exact; [repeat constructor|].
  apply nodupb_iff. reflexivity.
Defined.

(** ** The top level of the combined document *)
Section CombineTop.

Lemma del_absent (d : dict) (k : string) :
  PyDict.has d k = false -> PyDict.del k d = d.
Proof.
  unfold PyDict.has. induction d as [|[k' v'] d IH]; cbn [PyDict.del PyDict.get]; [reflexivity|].
  destruct (String.eqb k k'); [discriminate|]. intros H. now rewrite IH.
Qed.

Lemma has_del_same (d : dict) (k : string) :
  NoDup (PyDict.keys d) -> PyDict.has (PyDict.del k d) k = false.
Proof.
  induction d as [|[k' v'] d IH]; cbn [PyDict.del PyDict.keys map fst]; [reflexivity|].
  intros H. apply NoDup_cons_iff in H as [Hk Hd].
  destruct (String.eqb_spec k k') as [->|Hne].
  - now apply has_false_iff.
  - unfold PyDict.has in *. cbn [PyDict.get].
    destruct (String.eqb_spec k k'); [contradiction | now apply IH].
Qed.

(** The combined document, in closed form. *)
Lemma combine_exact (schemas base : dict) :
  PyDict.get schemas "bpmn-process" = Some (JObj base) ->
  Forall (fun e => schema_ok (snd e) = true) schemas ->
  NoDup (PyDict.keys base) ->
  Combined.combine schemas
  = inr (JObj (PyDict.del "$id"
                 (map (fun e => (fst e, rewritten_value "bpmn-process" e))
                      (PyDict.set "definitions" (JObj (merged schemas [])) base)))).
Proof.
  intros Hget Hok Hnd.
  unfold Combined.combine. exc_step. rewrite Hget. exc_step. cbn [Py.copy]. exc_step.
  rewrite (merge_definitions_ok _ _ Hok). exc_step. cbn [Py.setitem]. exc_step.
  rewrite update_refs_obj by now apply nodup_keys_set.
  exc_step.
  destruct (PyDict.has _ "$id") eqn:Hid.
  - cbn [Py.delitem]. now rewrite Hid.
  - now rewrite (del_absent _ _ Hid).
Qed.

End CombineTop.

(** X6.  On schema documents of the expected shape the combined document
    is an object without ["$id"]; its ["definitions"] are the rewritten
    merged definitions; and every other key of the base document is kept,
    with its value rewritten, while no key is added. *)
Theorem combine_top_level (schemas base : dict) :
  PyDict.get schemas "bpmn-process" = Some (JObj base) ->
  Forall (fun e => schema_ok (snd e) = true) schemas ->
  NoDup (PyDict.keys base) ->
  exists entries,
    Combined.combine schemas = inr (JObj entries)
    /\ PyDict.has entries "$id" = false
    /\ PyDict.get entries "definitions"
       = Some (Combined.update_refs (JObj (merged schemas [])) "bpmn-process")
    /\ forall k, k <> "$id" -> k <> "definitions" ->
                 PyDict.get entries k
                 = match PyDict.get base k with
                   | Some v => Some (rewritten_value "bpmn-process" (k, v))
                   | None => None
                   end.
Proof.
  intros Hget Hok Hnd. rewrite (combine_exact _ _ Hget Hok Hnd).
  eexists. split; [reflexivity|]. split; [|split].
  - apply has_del_same. rewrite keys_map_entries. now apply nodup_keys_set.
  - rewrite get_del_other by discriminate.
    now rewrite get_map_entries, get_set_same.
  - intros k Hid Hdef. rewrite get_del_other by assumption.
    now rewrite get_map_entries, get_set_other.
Qed.

Lemma combine_top_level_witness :
  exists entries,
    Combined.combine
      [("bpmn-process", JObj [("$id", JStr "bpmn-process.json"); ("type", JStr "object")])]
    = inr (JObj entries)
    /\ PyDict.has entries "$id" = false
    /\ PyDict.get entries "definitions"
       = Some (Combined.update_refs
                 (JObj (merged
                          [("bpmn-process",
                            JObj [("$id", JStr "bpmn-process.json"); ("type", JStr "object")])]
                          []))
                 "bpmn-process")
    /\ forall k, k <> "$id" -> k <> "definitions" ->
                 PyDict.get entries k
                 = match PyDict.get [("$id", JStr "bpmn-process.json"); ("type", JStr "object")] k
                   with
                   | Some v => Some (rewritten_value "bpmn-process" (k, v))
                   | None => None
                   end.
Proof.
  apply combine_top_level; [reflexivity | repeat constructor |].
  apply nodupb_iff. reflexivity.
Defined.

(** ** What the script does to its surroundings *)
Section Effects.

Lemma load_schemas_first_failure (read : string -> exc json) (e : exn)
      (before : list string) (path : string) (after : list string) (schemas : dict) :
  (forall p, In p before -> exists schema, read p = inr schema) ->
  read path = inl e ->
  Combined.load_schemas read (before ++ path :: after) schemas = inl e.
Proof.
  revert schemas. induction before as [|p before IH]; intros schemas Hb Hp.
  - cbn [app Combined.load_schemas]. now rewrite Hp.
  - cbn [app Combined.load_schemas].
    destruct (Hb p (or_introl eq_refl)) as [schema Hs]. rewrite Hs. exc_step.
    apply IH; [|assumption]. intros q Hq. apply Hb. now right.
Qed.

(** The validation loop only prints. *)
Lemma validate_all_prints (w : Combined.world) (files : list string)
      (trace : list Combined.event) :
  exists lines, fst (Combined.validate_all w files trace)
                = trace ++ map Combined.Printed lines.
Proof.
  revert trace. induction files as [|f files IH]; intros trace.
  - exists []. cbn. now rewrite app_nil_r.
  - cbn [Combined.validate_all]. unfold Combined.emit, Combined.lift.
    cbn [bind Combined.Monad_io].
    destruct (Combined.run w _) as [e|[rc err]].
    + eexists [_]. reflexivity.
    + cbn [fst snd]. destruct (rc =? 0)%Z.
      * destruct (IH ((trace ++ [Combined.Printed
                                    (Combined.newline +++ "Validating " +++ f +++ "...")])
                        ++ [Combined.Printed ("✓ " +++ f +++ " is valid")])) as [lines Hl].
        eexists (_ :: _ :: lines). rewrite Hl, <- !app_assoc. reflexivity.
      * destruct (IH (((trace ++ [Combined.Printed
                                     (Combined.newline +++ "Validating " +++ f +++ "...")])
                         ++ [Combined.Printed ("✗ " +++ f +++ " validation failed:")])
                        ++ [Combined.Printed err])) as [lines Hl].
        eexists (_ :: _ :: _ :: lines). rewrite Hl, <- !app_assoc. reflexivity.
Qed.

End Effects.

(** X7.  The files are loaded in the order of the list: when a file
    cannot be loaded and all the files before it can, [combine_schemas]
    ends with the exception of that file, whatever the later files are,
    and has done nothing. *)
Theorem combine_schemas_first_failure
        (w : Combined.world) (trace : list Combined.event) (e : exn)
        (before : list string) (path : string) (after : list string) :
  Combined.schema_files = before ++ path :: after ->
  (forall p, In p before -> exists schema, Combined.read_json w p = inr schema) ->
  Combined.read_json w path = inl e ->
  Combined.combine_schemas w trace = (trace, inl e).
Proof.
  intros Hfiles Hb Hp. unfold Combined.combine_schemas, Combined.lift.
  cbn [bind Combined.Monad_io]. rewrite Hfiles.
  now rewrite (load_schemas_first_failure _ e before path after [] Hb Hp).
Qed.

Lemma combine_schemas_first_failure_witness :
  Combined.combine_schemas world_without_agents []
  = ([], inl (FileError "No such file or directory")).
Proof.
  apply (combine_schemas_first_failure world_without_agents [] _
           [ "schemas/bpmn-common.json"; "schemas/bpmn-flow-objects.json";
             "schemas/bpmn-connectors.json"; "schemas/bpmn-artifacts.json" ]
           "schemas/bpmn-agents.json" ["schemas/bpmn-process.json"]).
  - reflexivity.
  - intros p Hp. cbn [In] in Hp.
    repeat (destruct Hp as [<-|Hp]; [eexists; reflexivity|]). contradiction.
  - reflexivity.
Defined.

(** X8.  In every world [combine_schemas] either ends with an exception
    having done nothing, or has written one document, to
    [schemas/bpmn-combined.json], before anything else: that document is
    the combination of the six loaded schemas, and all that follows it
    are printed lines. *)
Theorem combine_schemas_writes_once (w : Combined.world) (trace : list Combined.event) :
  (fst (Combined.combine_schemas w trace) = trace
   /\ exists e, snd (Combined.combine_schemas w trace) = inl e)
  \/ exists schemas combined lines,
       Combined.load_schemas (Combined.read_json w) Combined.schema_files [] = inr schemas
       /\ Combined.combine schemas = inr combined
       /\ fst (Combined.combine_schemas w trace)
          = trace ++ Combined.Written Combined.combined_path combined
                       :: map Combined.Printed lines.
Proof.
  unfold Combined.combine_schemas, Combined.lift, Combined.emit.
  cbn [bind Combined.Monad_io].
  destruct (Combined.load_schemas _ _ _) as [e|schemas];
    [left; split; [reflexivity | eexists; reflexivity]|].
  destruct (Combined.combine schemas) as [e|combined] eqn:Hc;
    [left; split; [reflexivity | eexists; reflexivity]|].
  destruct (Combined.open_for_writing w _) as [e|[]];
    [left; split; [reflexivity | eexists; reflexivity]|].
  right. exists schemas, combined.
  match goal with
  | |- context [Combined.validate_all w ?files ?t] =>
      destruct (validate_all_prints w files t) as [lines Hl]; rewrite Hl
  end.
  exists (("Created combined schema: " +++ Combined.combined_path)
            :: (Combined.newline +++ "Testing validation with combined schema...")
            :: lines).
  split; [reflexivity|]. split; [assumption|].
  rewrite <- !app_assoc. reflexivity.
Qed.

(** X9.  When the validator can be run on every sample, every sample is
    validated in turn, whatever the return codes are: the loop returns,
    having printed for each sample the line announcing it and then either
    the line saying it is valid, when the return code is 0, or the line
    saying it failed followed by the error stream. *)
Theorem validate_all_reports_every_sample
        (w : Combined.world) (files : list string) (results : list (Z * string))
        (trace : list Combined.event) :
  Forall2 (fun f r => Combined.run w (validator_argv f) = inr r) files results ->
  Combined.validate_all w files trace
  = (trace ++ map Combined.Printed
                  (flat_map (fun fr => validation_lines (fst fr) (snd fr))
                            (combine files results)),
     inr tt).
Proof.
  intros H. revert trace. induction H as [|f r files results Hr _ IH]; intros trace.
  - cbn. now rewrite app_nil_r.
  - cbn [Combined.validate_all]. unfold Combined.emit, Combined.lift.
    cbn [bind Combined.Monad_io]. fold (validator_argv f). rewrite Hr.
    cbn [combine flat_map fst snd]. unfold validation_lines at 1. cbn [fst snd].
    destruct (fst r =? 0)%Z; rewrite IH; cbn [map app]; rewrite <- !app_assoc; reflexivity.
Qed.

Lemma validate_all_reports_every_sample_witness :
  Combined.validate_all world_without_agents Combined.test_files []
  = ([] ++ map Combined.Printed
             (flat_map (fun fr => validation_lines (fst fr) (snd fr))
                       (combine Combined.test_files
                                [(0%Z, ""); (0%Z, ""); (0%Z, "")])),
     inr tt).
Proof.
  apply validate_all_reports_every_sample. repeat constructor.
Defined.

(** X10.  When the validator cannot be run on a sample, and can on the
    samples before it, the loop ends with that exception after the line
    announcing the sample: no later sample is validated. *)
Theorem validate_all_stops_at_exception
        (w : Combined.world) (before : list string) (results : list (Z * string))
        (test_file : string) (after : list string) (e : exn)
        (trace : list Combined.event) :
  Forall2 (fun f r => Combined.run w (validator_argv f) = inr r) before results ->
  Combined.run w (validator_argv test_file) = inl e ->
  Combined.validate_all w (before ++ test_file :: after) trace
  = (trace ++ map Combined.Printed
                  (flat_map (fun fr => validation_lines (fst fr) (snd fr))
                            (combine before results)
                     ++ [Combined.newline +++ "Validating " +++ test_file +++ "..."]),
     inl e).
Proof.
  intros H He. revert trace. induction H as [|f r files results Hr _ IH]; intros trace.
  - cbn [app Combined.validate_all]. unfold Combined.emit, Combined.lift.
    cbn [bind Combined.Monad_io]. fold (validator_argv test_file). now rewrite He.
  - cbn [app Combined.validate_all]. unfold Combined.emit, Combined.lift.
    cbn [bind Combined.Monad_io]. fold (validator_argv f). rewrite Hr.
    cbn [combine flat_map fst snd]. unfold validation_lines at 1. cbn [fst snd].
    destruct (fst r =? 0)%Z; rewrite IH; cbn [map app]; rewrite <- !app_assoc; reflexivity.
Qed.

Lemma validate_all_stops_at_exception_witness :
  Combined.validate_all world_without_validator Combined.test_files []
  = ([] ++ map Combined.Printed
             (flat_map (fun fr => validation_lines (fst fr) (snd fr)) (combine [] [])
                ++ [Combined.newline +++ "Validating "
                      +++ "test-data/simple-process.json" +++ "..."]),
     inl (FileError "No such file or directory: 'ajv'")).
Proof.
  apply (validate_all_stops_at_exception world_without_validator [] []
           "test-data/simple-process.json"
           ["test-data/parallel-gateway.json"; "test-data/exclusive-gateway.json"]).
  - constructor.
  - reflexivity.
Defined.

(** * Further properties of the structural validator *)

(** ** No error means valid *)
Section Validity.

Variable repr : json -> string.

Lemma when_nil (condition : bool) (m : string) :
  when condition m = [] <-> condition = false.
Proof. destruct condition; cbn [when]; split; congruence. Qed.

Lemma flat_map_nil {A : Type} (f : A -> list string) (g : A -> bool) (l : list A) :
  (forall x, In x l -> (f x = [] <-> g x = true)) ->
  flat_map f l = [] <-> forallb g l = true.
Proof.
  induction l as [|x l IH]; intros H; cbn [flat_map forallb]; [tauto|].
  rewrite andb_true_iff, <- IH by (intros y Hy; apply H; now right).
  rewrite <- (H x) by now left. split.
  - intros E. now apply app_eq_nil in E.
  - intros [-> ->]. reflexivity.
Qed.

Ltac nil_cases :=
  repeat match goal with
         | |- context [PyDict.has ?e ?k] => destruct (PyDict.has e k)
         | |- context [Py.eq_str ?t ?s] => destruct (Py.eq_str t s)
         | |- context [agent_lacks ?a ?f] => destruct (agent_lacks a f)
         | |- context [existsb ?f ?l] => destruct (existsb f l)
         end;
  cbn; split; intros; try discriminate; try reflexivity.

Lemma event_errors_nil (x : json) :
  element_ok x = true -> event_errors repr x = [] <-> event_valid x = true.
Proof.
  destruct x as [| | | | | |e]; try discriminate. intros _.
  cbn [event_errors event_valid]. unfold lacks.
  destruct (PyDict.get e "type") as [type|]; nil_cases.
Qed.

Lemma gateway_errors_nil (x : json) :
  element_ok x = true -> gateway_errors repr x = [] <-> gateway_valid x = true.
Proof.
  destruct x as [| | | | | |e]; try discriminate. intros _.
  cbn [gateway_errors gateway_valid]. unfold lacks. nil_cases.
Qed.

Lemma activity_errors_nil (x : json) :
  activity_ok x = true -> activity_errors repr x = [] <-> activity_valid x = true.
Proof.
  destruct x as [| | | | | |e]; try discriminate. intros _.
  cbn [activity_errors activity_valid]. unfold lacks.
  destruct (PyDict.get e "agent") as [agent|]; nil_cases.
Qed.

Lemma flow_errors_nil (ids : list json) (x : json) :
  flow_ok x = true -> flow_errors repr ids x = [] <-> flow_valid ids x = true.
Proof.
  destruct x as [| | | | | |e]; try discriminate. intros _.
  cbn [flow_errors flow_valid]. unfold lacks, ref_errors, ref_valid.
  destruct (PyDict.get e "sourceRef"), (PyDict.get e "targetRef"); nil_cases.
Qed.

Lemma section_items_ok (ok : json -> bool) (elements : dict) (key : string) :
  section_ok ok elements key = true -> forall x, In x (items_of elements key) -> ok x = true.
Proof.
  unfold section_ok, items_of.
  destruct (PyDict.get elements key) as [[| | | | |items|]|]; try discriminate;
    try (intros _ x []).
  intros H x Hx. rewrite forallb_forall in H. auto.
Qed.

Lemma errors_below_nil (elements : dict) :
  elements_ok elements = true ->
  element_errors repr elements ++ sequence_flow_errors repr elements = []
  <-> elements_valid elements = true.
Proof.
  unfold elements_ok, elements_valid. rewrite !andb_true_iff. intros [[[He Ha] Hg] Hf].
  unfold element_errors, sequence_flow_errors.
  rewrite <- (flat_map_nil (event_errors repr) event_valid)
    by (intros x Hx; apply event_errors_nil, (section_items_ok _ _ _ He _ Hx)).
  rewrite <- (flat_map_nil (activity_errors repr) activity_valid)
    by (intros x Hx; apply activity_errors_nil, (section_items_ok _ _ _ Ha _ Hx)).
  rewrite <- (flat_map_nil (gateway_errors repr) gateway_valid)
    by (intros x Hx; apply gateway_errors_nil, (section_items_ok _ _ _ Hg _ Hx)).
  rewrite <- (flat_map_nil (flow_errors repr (all_declared elements))
                (flow_valid (all_declared elements)))
    by (intros x Hx; apply flow_errors_nil, (section_items_ok _ _ _ Hf _ Hx)).
  split.
  - intros E. apply app_eq_nil in E as [E ->]. apply app_eq_nil in E as [-> E].
    apply app_eq_nil in E as [-> ->]. auto.
  - intros [[[-> ->] ->] ->]. reflexivity.
Qed.

(** On a document of the expected shape [check] returns, and returns no
    error exactly when the document is valid. *)
Lemma check_nil_iff_valid (data : json) :
  document_ok data = true ->
  exists errors,
    Validator.check repr data = inr errors
    /\ (errors = [] <-> document_valid data = true).
Proof.
  destruct data as [| | | | | |d]; try discriminate. cbn [document_ok document_valid].
  destruct (PyDict.get d "process") as [[| | | | | |p]|] eqn:Hp; try discriminate.
  - intros Hok. rewrite (check_ok repr _ _ Hp Hok). eexists. split; [reflexivity|].
    unfold process_valid, errors_below, process_ok, lacks in *.
    rewrite (has_get p "elements").
    destruct (PyDict.get p "elements") as [[| | | | | |elements]|]; try discriminate.
    + destruct (PyDict.has p "id"), (PyDict.has p "name"); cbn [negb andb when app];
        try (split; discriminate).
      now apply errors_below_nil.
    + destruct (PyDict.has p "id"), (PyDict.has p "name"); cbn; split;
        intros; discriminate.
  - intros _. rewrite check_without_process by (now rewrite has_get, Hp).
    eexists. split; [reflexivity|]. split; discriminate.
Qed.

End Validity.

(** X11.  On a document of the expected shape [check_bpmn_file] returns
    a list of errors, and the list is empty exactly when the document is
    valid: the process has an id, a name and elements, every event,
    activity and gateway has an id and a type, every boundary event says
    what it is attached to, every activity has a name and an agent, if
    any, with a type and a strategy, and every flow has an id and two
    ends that are declared ids. *)
Theorem check_accepts_exactly_valid (repr : json -> string) (read : string -> exc json)
        (filepath : string) (data : json) :
  read filepath = inr data ->
  document_ok data = true ->
  exists errors,
    Validator.check_bpmn_file repr read filepath = inr errors
    /\ (errors = [] <-> document_valid data = true).
Proof.
  intros Hr Hok. unfold Validator.check_bpmn_file. rewrite Hr.
  now apply check_nil_iff_valid.
Qed.

Lemma check_accepts_exactly_valid_witness :
  exists errors,
    Validator.check_bpmn_file no_repr
      (fun _ => inr (minimal_document (JStr "p") (JStr "P") "a1")) "sample.json"
    = inr errors
    /\ (errors = [] <-> document_valid (minimal_document (JStr "p") (JStr "P") "a1") = true).
Proof.
  apply (check_accepts_exactly_valid no_repr _ "sample.json"); reflexivity.
Defined.

(** X12.  In a document of the expected shape every event of type
    ["boundaryEvent"] without ["attachedToRef"] is reported, cited by its
    id, or by ["?"] when it has none. *)
Theorem check_boundary_event (repr : json -> string) (d p elements e : dict) :
  PyDict.get d "process" = Some (JObj p) ->
  PyDict.get p "elements" = Some (JObj elements) ->
  elements_ok elements = true ->
  In (JObj e) (items_of elements "events") ->
  PyDict.get e "type" = Some (JStr "boundaryEvent") ->
  PyDict.has e "attachedToRef" = false ->
  exists errors,
    Validator.check repr (JObj d) = inr errors
    /\ In ("Boundary event "
             +++ Validator.str repr
                   (match PyDict.get e "id" with Some i => i | None => JStr "?" end)
             +++ " missing 'attachedToRef'") errors.
Proof.
  intros Hp He Hok Hin Htype Hatt. eexists. split.
  - apply check_ok; [eassumption|]. unfold process_ok. now rewrite He.
  - rewrite !in_app_iff. do 3 right.
    unfold errors_below. rewrite He, in_app_iff. left.
    unfold element_errors. rewrite !in_app_iff. left.
    apply in_flat_map. exists (JObj e). split; [assumption|].
    cbn [event_errors]. rewrite !in_app_iff. do 2 right.
    unfold lacks. rewrite Htype, Hatt. now left.
Qed.

Lemma check_boundary_event_witness :
  exists errors,
    Validator.check no_repr
      (JObj [("process",
              JObj [("elements",
                     JObj [("events",
                            JArr [JObj [("id", JStr "b1");
                                        ("type", JStr "boundaryEvent")]])])])])
    = inr errors
    /\ In ("Boundary event " +++ Validator.str no_repr (JStr "b1")
             +++ " missing 'attachedToRef'") errors.
Proof.
  apply (check_boundary_event no_repr
           [("process",
             JObj [("elements",
                    JObj [("events",
                           JArr [JObj [("id", JStr "b1");
                                       ("type", JStr "boundaryEvent")]])])])]
           [("elements",
             JObj [("events",
                    JArr [JObj [("id", JStr "b1"); ("type", JStr "boundaryEvent")]])])]
           [("events", JArr [JObj [("id", JStr "b1"); ("type", JStr "boundaryEvent")]])]
           [("id", JStr "b1"); ("type", JStr "boundaryEvent")]);
    try reflexivity.
  cbn. now left.
Defined.

(** X13.  The two checks of an agent are independent.  In a document of
    the expected shape an activity whose agent is an object is reported
    once for a missing ["type"] and once for a missing ["strategy"], each
    by its own message; and an activity with an id, a name and a type adds
    exactly these messages, so that an agent with a type and without a
    strategy gives the one error about the strategy. *)
Theorem check_agent (repr : json -> string) :
  (forall d p elements a agent field,
      PyDict.get d "process" = Some (JObj p) ->
      PyDict.get p "elements" = Some (JObj elements) ->
      elements_ok elements = true ->
      In (JObj a) (items_of elements "activities") ->
      PyDict.get a "agent" = Some (JObj agent) ->
      field = "type" \/ field = "strategy" ->
      PyDict.has agent field = false ->
      exists errors,
        Validator.check repr (JObj d) = inr errors
        /\ In ("Activity "
                 +++ Validator.str repr
                       (match PyDict.get a "id" with Some i => i | None => JStr "?" end)
                 +++ " agent missing '" +++ field +++ "'") errors)
  /\ (forall a i agent errors ids,
         PyDict.get a "id" = Some i -> Validator.hashable i = true ->
         PyDict.has a "name" = true -> PyDict.has a "type" = true ->
         PyDict.get a "agent" = Some (JObj agent) ->
         Validator.check_activity repr (errors, ids) (JObj a)
         = inr (errors
                  ++ when (negb (PyDict.has agent "type"))
                       ("Activity " +++ Validator.str repr i +++ " agent missing 'type'")
                  ++ when (negb (PyDict.has agent "strategy"))
                       ("Activity " +++ Validator.str repr i +++ " agent missing 'strategy'"),
                ids ++ [i])).
Proof.
  split.
  - intros d p elements a agent field Hp He Hok Hin Hagent Hfield Hmiss.
    eexists. split.
    + apply check_ok; [eassumption|]. unfold process_ok. now rewrite He.
    + rewrite !in_app_iff. do 3 right.
      unfold errors_below. rewrite He, in_app_iff. left.
      unfold element_errors. rewrite !in_app_iff. right. left.
      apply in_flat_map. exists (JObj a). split; [assumption|].
      cbn [activity_errors]. rewrite Hagent, !in_app_iff. do 3 right.
      unfold agent_lacks. cbn [Py.contains]. exc_step.
      destruct Hfield as [-> | ->]; rewrite Hmiss; cbn [negb when]; [left | right]; now left.
  - intros a i agent errors ids Hi Hh Hname Htype Hagent.
    assert (Hok : activity_ok (JObj a) = true)
      by (cbn [activity_ok]; unfold field_hashable; now rewrite Hi, Hh, Hagent).
    rewrite (check_activity_obj repr _ _ _ Hok).
    cbn [activity_errors declared_ids flat_map]. unfold lacks, who, agent_lacks.
    rewrite Hagent, Hname, Htype, (has_get a "id"), Hi. cbn [Py.contains]. exc_step.
    reflexivity.
Qed.

Lemma check_agent_witness :
  exists errors,
    Validator.check no_repr
      (JObj [("process",
              JObj [("elements",
                     JObj [("activities",
                            JArr [JObj [("id", JStr "a1");
                                        ("agent", JObj [("type", JStr "llm")])]])])])])
    = inr errors
    /\ In ("Activity " +++ Validator.str no_repr (JStr "a1")
             +++ " agent missing '" +++ "strategy" +++ "'") errors.
Proof.
  apply (proj1 (check_agent no_repr)
           [("process",
             JObj [("elements",
                    JObj [("activities",
                           JArr [JObj [("id", JStr "a1");
                                       ("agent", JObj [("type", JStr "llm")])]])])])]
           [("elements",
             JObj [("activities",
                    JArr [JObj [("id", JStr "a1");
                                ("agent", JObj [("type", JStr "llm")])]])])]
           [("activities",
             JArr [JObj [("id", JStr "a1"); ("agent", JObj [("type", JStr "llm")])]])]
           [("id", JStr "a1"); ("agent", JObj [("type", JStr "llm")])]
           [("type", JStr "llm")] "strategy");
    try reflexivity.
  - cbn. now left.
  - now right.
Defined.

(** X14.  A loaded document that is not an object is not reported as
    such.  On [null], a boolean or a number the check raises [TypeError];
    on a list or a string it returns the error about the missing root
    unless the list has the item ["process"], or the string has it as a
    substring, in which case it raises [TypeError] too.  The exception is
    not caught by [check_bpmn_file]. *)
Theorem check_on_other_values (repr : json -> string) (read : string -> exc json)
        (filepath : string) (data : json) :
  read filepath = inr data ->
  Validator.check_bpmn_file repr read filepath
  = match data with
    | JObj _ => Validator.check repr data
    | JArr items =>
        if existsb (fun v => Py.eq_str v "process") items
        then inl TypeError else inr ["Missing 'process' root element"]
    | JStr s =>
        if PyStr.contains "process" s
        then inl TypeError else inr ["Missing 'process' root element"]
    | _ => inl TypeError
    end.
Proof.
  intros Hr. unfold Validator.check_bpmn_file. rewrite Hr.
  destruct data as [| | | | s |items|d]; try reflexivity.
  - unfold Validator.check, Validator.missing. exc_step.
    now destruct (PyStr.contains "process" s).
  - unfold Validator.check, Validator.missing. exc_step.
    assert (E : existsb (fun v => match v with
                                  | JStr s => String.eqb "process" s
                                  | _ => false
                                  end) items
                = existsb (fun v => Py.eq_str v "process") items).
    { clear Hr. induction items as [|x items IH]; cbn [existsb]; [reflexivity|].
      rewrite IH. f_equal. destruct x; try reflexivity.
      cbn [Py.eq_str]. apply String.eqb_sym. }
    rewrite E. destruct (existsb (fun v => Py.eq_str v "process") items); reflexivity.
Qed.

Lemma check_on_other_values_witness :
  Validator.check_bpmn_file no_repr (fun _ => inr (JArr [JStr "process"])) "sample.json"
  = inl TypeError.
Proof.
  apply (check_on_other_values no_repr (fun _ => inr (JArr [JStr "process"]))
           "sample.json" (JArr [JStr "process"])).
  reflexivity.
Defined.

(** X15.  An id that is a list or an object cannot be put in the set of
    ids: when the first event of a document has such an id the check
    raises [TypeError] and returns no error list at all. *)
Theorem check_unhashable_id (repr : json -> string) (d p elements e : dict)
        (rest : list json) (i : json) :
  PyDict.get d "process" = Some (JObj p) ->
  PyDict.get p "elements" = Some (JObj elements) ->
  PyDict.get elements "events" = Some (JArr (JObj e :: rest)) ->
  PyDict.get e "id" = Some i ->
  Validator.hashable i = false ->
  Validator.check repr (JObj d) = inl TypeError.
Proof.
  intros Hp He Hev Hi Hh. rewrite (check_with_process repr _ _ Hp), He.
  unfold Validator.check_elements, Validator.each_of. exc_step.
  rewrite has_get, Hev. exc_step. cbn [Validator.for_each].
  unfold Validator.check_event, Validator.declare.
  rewrite missing_obj. exc_step. unfold lacks. rewrite has_get, Hi. cbn [negb].
  exc_step. unfold Validator.set_add. rewrite Hh. reflexivity.
Qed.

Lemma check_unhashable_id_witness :
  Validator.check no_repr
    (JObj [("process",
            JObj [("elements",
                   JObj [("events", JArr [JObj [("id", JArr [JStr "e1"])]])])])])
  = inl TypeError.
Proof.
  apply (check_unhashable_id no_repr
           [("process",
             JObj [("elements",
                    JObj [("events", JArr [JObj [("id", JArr [JStr "e1"])]])])])]
           [("elements", JObj [("events", JArr [JObj [("id", JArr [JStr "e1"])]])])]
           [("events", JArr [JObj [("id", JArr [JStr "e1"])]])]
           [("id", JArr [JStr "e1"])] [] (JArr [JStr "e1"]));
    reflexivity.
Defined.

(** ** The batch runner *)
Section RunnerFacts.

Variable repr : json -> string.
Variable read : string -> exc json.

Lemma report_all_returns (files : list string) (results : list (list string))
      (printed : list string) :
  Forall2 (fun f errors => Validator.check_bpmn_file repr read f = inr errors)
          files results ->
  Runner.report_all repr read files printed
  = (printed ++ flat_map (fun fe => testing_line (fst fe) :: Runner.verdict (fst fe) (snd fe))
                         (combine files results),
     inr tt).
Proof.
  intros H. revert printed. induction H as [|f errors files results Hf _ IH]; intros printed.
  - cbn. now rewrite app_nil_r.
  - cbn [Runner.report_all]. rewrite Hf, IH.
    cbn [combine flat_map fst snd]. unfold testing_line.
    now rewrite <- !app_assoc.
Qed.

Lemma report_all_raises (before : list string) (results : list (list string))
      (filepath : string) (after : list string) (e : exn) (printed : list string) :
  Forall2 (fun f errors => Validator.check_bpmn_file repr read f = inr errors)
          before results ->
  Validator.check_bpmn_file repr read filepath = inl e ->
  Runner.report_all repr read (before ++ filepath :: after) printed
  = (printed ++ flat_map (fun fe => testing_line (fst fe) :: Runner.verdict (fst fe) (snd fe))
                         (combine before results)
             ++ [testing_line filepath],
     inl e).
Proof.
  intros H He. revert printed. induction H as [|f errors files results Hf _ IH]; intros printed.
  - cbn [app Runner.report_all combine flat_map]. now rewrite He.
  - cbn [app Runner.report_all]. rewrite Hf, IH.
    cbn [combine flat_map fst snd]. unfold testing_line.
    now rewrite <- !app_assoc.
Qed.

End RunnerFacts.

(** X16.  When the check returns for every sample, the runner returns:
    after the title and the rule it has printed, for each of the seven
    samples in turn, the line announcing it, then the verdict, which is
    the [VALID] line when the check found no error and the [INVALID] line
    followed by one line for each error otherwise. *)
Theorem main_reports_every_sample (repr : json -> string) (read : string -> exc json)
        (results : list (list string)) (printed : list string) :
  Forall2 (fun f errors => Validator.check_bpmn_file repr read f = inr errors)
          Runner.test_files results ->
  Runner.main repr read printed
  = (printed ++ ["BPMN JSON Structure Validation"; Runner.rule]
       ++ flat_map (fun fe => testing_line (fst fe) :: Runner.verdict (fst fe) (snd fe))
                   (combine Runner.test_files results),
     inr tt).
Proof.
  intros H. unfold Runner.main. rewrite (report_all_returns repr read _ _ _ H).
  now rewrite <- app_assoc.
Qed.

Lemma main_reports_every_sample_witness :
  Runner.main no_repr no_samples []
  = ([] ++ ["BPMN JSON Structure Validation"; Runner.rule]
       ++ flat_map (fun fe => testing_line (fst fe) :: Runner.verdict (fst fe) (snd fe))
                   (combine Runner.test_files
                            (map (fun f => ["Failed to load JSON: "
                                              +++ "No such file or directory: " +++ f])
                                 Runner.test_files)),
     inr tt).
Proof.
  apply main_reports_every_sample. repeat constructor.
Defined.

(** X17.  An exception of the check is not caught by the runner: when
    the check raises on a sample and returns on the samples before it,
    the runner ends with that exception after the line announcing the
    sample, and reports no later sample. *)
Theorem main_stops_at_exception (repr : json -> string) (read : string -> exc json)
        (before : list string) (results : list (list string)) (filepath : string)
        (after : list string) (e : exn) (printed : list string) :
  Runner.test_files = before ++ filepath :: after ->
  Forall2 (fun f errors => Validator.check_bpmn_file repr read f = inr errors)
          before results ->
  Validator.check_bpmn_file repr read filepath = inl e ->
  Runner.main repr read printed
  = (printed ++ ["BPMN JSON Structure Validation"; Runner.rule]
       ++ flat_map (fun fe => testing_line (fst fe) :: Runner.verdict (fst fe) (snd fe))
                   (combine before results)
       ++ [testing_line filepath],
     inl e).
Proof.
  intros Hfiles H He. unfold Runner.main. rewrite Hfiles.
  rewrite (report_all_raises repr read _ _ _ after _ _ H He).
  now rewrite <- app_assoc.
Qed.

Lemma main_stops_at_exception_witness :
  Runner.main no_repr (fun _ => inr (JInt 3)) []
  = ([] ++ ["BPMN JSON Structure Validation"; Runner.rule]
       ++ flat_map (fun fe => testing_line (fst fe) :: Runner.verdict (fst fe) (snd fe))
                   (combine [] [])
       ++ [testing_line "test-data/simple-process.json"],
     inl TypeError).
Proof.
  apply (main_stops_at_exception no_repr (fun _ => inr (JInt 3)) [] []
           "test-data/simple-process.json"
           [ "test-data/parallel-gateway.json"; "test-data/exclusive-gateway.json";
             "test-data/subprocess.json"; "test-data/ai-human-collab.json";
             "test-data/dynamic-assignment.json"; "test-data/invalid-bpmn.json" ]).
  - reflexivity.
  - constructor.
  - reflexivity.
Defined.

(** ** The verdicts of the batch runner *)
Section Verdicts.

Variable repr : json -> string.
Variable read : string -> exc json.






End Verdicts.



(** ** The merge of the six schemas *)
Section MergeOfSix.







End MergeOfSix.


